(** * WiFi manager (wifi_manager.py): scan parsing, network store, auto-connect

    A shallow embedding of the [WiFiManager] class.  The operating system
    (the [nmcli] command run through [subprocess.run]), the configuration
    file and the clock are explicit: every method is a function on a
    [world] that records the file contents and the commands issued so far,
    and the answers of [nmcli] and of [time.time()] are oracles.  Whether
    a write of the file goes through, and whether a write that does not
    has emptied the file before it failed, is part of the [world] too.

    Text is modelled by [string], read as a sequence of code points below
    256; the string functions below are exact on ASCII text.  Time stamps
    are modelled by [Z]: the code only stores and compares them.  The
    [print] calls are not modelled. *)

From Stdlib Require Import List String Ascii ZArith Bool Lia Permutation Sorted.
Import ListNotations.
Local Open Scope string_scope.
Local Open Scope list_scope.
Local Open Scope Z_scope.

(** ** Python string operations used by the source *)

Module PyStr.

(** Characters removed by [str.strip()] with no argument. *)
Definition is_space (c : ascii) : bool :=
  let n := nat_of_ascii c in
  ((9 <=? n) && (n <=? 13) || (28 <=? n) && (n <=? 32)
   || (n =? 133) || (n =? 160))%nat.

(** Characters skipped by [int()] around the number. *)
Definition is_int_space (c : ascii) : bool :=
  let n := nat_of_ascii c in
  ((9 <=? n) && (n <=? 13) || (n =? 32) || (n =? 133) || (n =? 160))%nat.

Definition is_digit (c : ascii) : bool :=
  let n := nat_of_ascii c in ((48 <=? n) && (n <=? 57))%nat.

Definition digit_value (c : ascii) : Z := Z.of_nat (nat_of_ascii c) - 48.

Definition is_empty (s : string) : bool :=
  match s with EmptyString => true | String _ _ => false end.

Fixpoint lstrip_by (sp : ascii -> bool) (s : string) : string :=
  match s with
  | EmptyString => EmptyString
  | String c r => if sp c then lstrip_by sp r else s
  end.

Fixpoint rstrip_by (sp : ascii -> bool) (s : string) : string :=
  match s with
  | EmptyString => EmptyString
  | String c r =>
      let r' := rstrip_by sp r in
      if sp c && is_empty r' then EmptyString else String c r'
  end.

(** [s.strip()] *)
Definition strip (s : string) : string := rstrip_by is_space (lstrip_by is_space s).

(** [s.split(sep)] for a one-character separator: never the empty list. *)
Fixpoint split (sep : ascii) (s : string) : list string :=
  match s with
  | EmptyString => [EmptyString]
  | String c r =>
      if Ascii.eqb c sep then EmptyString :: split sep r
      else match split sep r with
           | [] => [String c EmptyString]
           | w :: ws => String c w :: ws
           end
  end.

(** [sep in s] for a one-character [sep]. *)
Fixpoint contains (sep : ascii) (s : string) : bool :=
  match s with
  | EmptyString => false
  | String c r => Ascii.eqb c sep || contains sep r
  end.

(** [s.startswith(p)] *)
Definition startswith (p s : string) : bool := String.prefix p s.

(** [s.split(sep, 1)[1]]: the text after the first separator; [None] is the
    [IndexError] raised when there is no separator. *)
Fixpoint after_first (sep : ascii) (s : string) : option string :=
  match s with
  | EmptyString => None
  | String c r => if Ascii.eqb c sep then Some r else after_first sep r
  end.

(** Decimal digits with single underscores between digits, as [int()]
    accepts them; [prev] tells whether the previous character was a digit. *)
Fixpoint digits (s : string) (acc : Z) (prev : bool) : option Z :=
  match s with
  | EmptyString => if prev then Some acc else None
  | String c r =>
      if is_digit c then digits r (10 * acc + digit_value c) true
      else if Ascii.eqb c "_" then (if prev then digits r acc false else None)
      else None
  end.

(** [int(s)]; [None] is the [ValueError]. *)
Definition int (s : string) : option Z :=
  match rstrip_by is_int_space (lstrip_by is_int_space s) with
  | String "+" r => digits r 0 false
  | String "-" r => option_map Z.opp (digits r 0 false)
  | t => digits t 0 false
  end.

(** Truth value of a string, and of an optional string ([None] is falsy). *)
Definition truthy (s : string) : bool := negb (is_empty s).

Definition truthy_opt (o : option string) : bool :=
  match o with Some s => truthy s | None => false end.

End PyStr.

(** [sorted(l, key=..., reverse=True)]: Python's sort is stable, also with
    [reverse=True], so the result is the stable descending sort: each
    element goes before the first element whose key is not greater. *)
Section StableSort.
Context {A : Type} (key : A -> Z).

Fixpoint insert_desc (x : A) (l : list A) : list A :=
  match l with
  | [] => [x]
  | y :: l' => if key y <=? key x then x :: l else y :: insert_desc x l'
  end.

Definition sorted_desc (l : list A) : list A := fold_right insert_desc [] l.

(** [a] may stand before [b] in a descending list. *)
Definition desc (a b : A) : Prop := key b <= key a.
End StableSort.

(** ** Data model *)

(** One element of [scan_networks]' result: the dictionary with the keys
    ["ssid"], ["security"] and ["signal"] (the signal is kept as text). *)
Module Scan.
Record t := mk { ssid : string; security : string; signal : string }.
End Scan.

(** One saved network: the dictionary with the keys ["ssid"], ["password"]
    ([None] for [null]) and ["last_used"] ([None] when the key is absent). *)
Module Net.
Record t := mk { ssid : string; password : option string; last_used : option Z }.
End Net.

(** The configuration: [{"networks": [...], "last_connected": ...}]. *)
Record config := { networks : list Net.t; last_connected : option string }.

Definition default_config : config := {| networks := []; last_connected := None |}.

(** What is at [config_file]: nothing, text that [json.load] rejects, or a
    configuration. *)
Inductive disk := Absent | Corrupt | Stored (c : config).

(** Outcome of [subprocess.run]: a completed process, or an exception
    (the timeout expired, or the command could not be started). *)
Inductive completed :=
  | Completed (returncode : Z) (stdout stderr : string)
  | Raised.

Definition argv := list string.

(** The observable state: the file, whether a write of it goes through,
    whether a write that does not go through fails only after
    [open(config_file, 'w')] has created or emptied the file, the commands run
    so far (oldest first) and how often the clock has been read. *)
Record world := {
  file : disk;
  writable : bool;
  write_opens : bool;
  calls : list argv;
  clock_reads : nat
}.

(** ** The state monad of the methods *)

Definition M (A : Type) : Type := world -> A * world.

Definition ret {A} (a : A) : M A := fun w => (a, w).

Definition bind {A B} (m : M A) (k : A -> M B) : M B :=
  fun w => let (a, w') := m w in k a w'.

Notation "x <- m ;; k" := (bind m (fun x => k))
  (at level 61, m at next level, right associativity).
Notation "m ;;; k" := (bind m (fun _ => k))
  (at level 61, right associativity).

(** ** Scan parsing (the body of [scan_networks]) *)

(** The body of the first loop for one line: the entries appended. *)
Definition parse_line (line : string) : list Scan.t :=
  if PyStr.truthy line && PyStr.contains ":" line then
    match PyStr.split ":" line with
    | p0 :: p1 :: p2 :: _ =>
        if PyStr.truthy p0 then
          [ {| Scan.ssid := p0;
               Scan.security := if PyStr.truthy p1 then p1 else "Open";
               Scan.signal := if PyStr.truthy p2 then p2 else "0" |} ]
        else []
    | _ => []
    end
  else [].

(** [result.stdout.strip().split('\n')] *)
Definition lines_of (stdout : string) : list string :=
  PyStr.split "010" (PyStr.strip stdout).

(** The list [networks] after the first loop. *)
Definition records (stdout : string) : list Scan.t :=
  flat_map parse_line (lines_of stdout).

(** The dictionary [unique_networks]: keys in insertion order; assigning to
    a key that is present keeps its place. *)
Definition dict := list (string * Scan.t).

Fixpoint dict_get (k : string) (d : dict) : option Scan.t :=
  match d with
  | [] => None
  | (k', v) :: d' => if String.eqb k' k then Some v else dict_get k d'
  end.

Fixpoint dict_set (k : string) (v : Scan.t) (d : dict) : dict :=
  match d with
  | [] => [(k, v)]
  | (k', v') :: d' =>
      if String.eqb k' k then (k, v) :: d' else (k', v') :: dict_set k v d'
  end.

(** The second loop; [None] is the [ValueError] of [int]. *)
Fixpoint unique_loop (nets : list Scan.t) (d : dict) : option dict :=
  match nets with
  | [] => Some d
  | net :: rest =>
      match dict_get (Scan.ssid net) d with
      | None => unique_loop rest (dict_set (Scan.ssid net) net d)
      | Some old =>
          match PyStr.int (Scan.signal net) with
          | None => None
          | Some a =>
              match PyStr.int (Scan.signal old) with
              | None => None
              | Some b =>
                  unique_loop rest
                    (if a >? b then dict_set (Scan.ssid net) net d else d)
              end
          end
      end
  end.

(** The sort key [int(x["signal"])] where it is defined. *)
Definition signal_value (e : Scan.t) : Z :=
  match PyStr.int (Scan.signal e) with Some z => z | None => 0 end.

Definition numeric (e : Scan.t) : bool :=
  match PyStr.int (Scan.signal e) with Some _ => true | None => false end.

(** [sorted(unique_networks.values(), key=..., reverse=True)]: the key is
    computed for every element first, and raises where [int] does. *)
Definition sort_by_signal (vals : list Scan.t) : option (list Scan.t) :=
  if forallb numeric vals then Some (sorted_desc signal_value vals) else None.

(** Everything inside the [try] after the command has returned. *)
Definition scan_output (stdout : string) : option (list Scan.t) :=
  match unique_loop (records stdout) [] with
  | None => None
  | Some d => sort_by_signal (map snd d)
  end.

(** What [scan_networks] returns for an outcome of the command; the
    [except] branch returns the empty list. *)
Definition scan_result (r : completed) : list Scan.t :=
  match r with
  | Raised => []
  | Completed _ out _ =>
      match scan_output out with Some l => l | None => [] end
  end.

(** ** The commands *)

Definition scan_cmd : argv := ["nmcli"; "-t"; "-f"; "SSID,SECURITY,SIGNAL"; "dev"; "wifi"].
Definition active_cmd : argv := ["nmcli"; "-t"; "-f"; "ACTIVE,SSID"; "dev"; "wifi"].
Definition interface : string := "wlan0".
Definition disconnect_cmd : argv := ["nmcli"; "dev"; "disconnect"; interface].

Definition connect_open (ssid : string) : argv :=
  ["nmcli"; "dev"; "wifi"; "connect"; ssid].
Definition connect_secured (ssid password : string) : argv :=
  ["nmcli"; "dev"; "wifi"; "connect"; ssid; "password"; password].

(** The command chosen by [if password:] in [connect_to_network]. *)
Definition connect_cmd (ssid : string) (password : option string) : argv :=
  match password with
  | Some p => if PyStr.truthy p then connect_secured ssid p else connect_open ssid
  | None => connect_open ssid
  end.

Definition is_connect (c : argv) : bool :=
  match c with
  | "nmcli" :: "dev" :: "wifi" :: "connect" :: _ => true
  | _ => false
  end.

(** ** The store *)

(** The sort key [x.get("last_used", 0)]. *)
Definition recency_key (n : Net.t) : Z :=
  match Net.last_used n with Some t => t | None => 0 end.

Definition load_config : M config :=
  fun w => (match file w with Stored c => c | _ => default_config end, w).

(** What [save_config] leaves on disk.  [os.makedirs], [open(..., 'w')] and
    [json.dump] run in this order inside one [try]: a failure of the first two
    leaves the file as it was; [open] creates or empties the file, so a failure
    of [json.dump] (or of the flush when the [with] block closes) leaves an
    empty or cut-off text, which [json.load] rejects. *)
Definition written (c : config) (w : world) : disk :=
  if writable w then Stored c
  else if write_opens w then Corrupt
  else file w.

(** The exception of a failed write is caught and reported. *)
Definition save_config (c : config) : M unit :=
  fun w =>
    (tt, {| file := written c w; writable := writable w;
            write_opens := write_opens w;
            calls := calls w; clock_reads := clock_reads w |}).

Definition ensure_config_exists : M unit :=
  fun w => match file w with
           | Absent => save_config default_config w
           | _ => (tt, w)
           end.

Definition get_saved_networks : M (list Net.t) :=
  c <- load_config ;;
  ret (sorted_desc recency_key (networks c)).

(** The record list written by [save_network]. *)
Definition upsert (ssid : string) (password : option string) (now : Z)
    (c : config) : config :=
  {| networks :=
       filter (fun n => negb (String.eqb (Net.ssid n) ssid)) (networks c)
       ++ [ {| Net.ssid := ssid; Net.password := password;
               Net.last_used := Some now |} ];
     last_connected := Some ssid |}.

(** ** The methods that talk to the system *)

Section Manager.
(** [nmcli h c]: the outcome of running [c] after the commands [h]. *)
Variable nmcli : list argv -> argv -> completed.
(** [time_time n]: the value of the [n]-th reading of the clock. *)
Variable time_time : nat -> Z.

Definition subprocess_run (c : argv) : M completed :=
  fun w => (nmcli (calls w) c,
            {| file := file w; writable := writable w;
               write_opens := write_opens w;
               calls := calls w ++ [c]; clock_reads := clock_reads w |}).

Definition read_clock : M Z :=
  fun w => (time_time (clock_reads w),
            {| file := file w; writable := writable w;
               write_opens := write_opens w;
               calls := calls w; clock_reads := S (clock_reads w) |}).

Definition scan_networks : M (list Scan.t) :=
  r <- subprocess_run scan_cmd ;;
  ret (scan_result r).

Definition save_network (ssid : string) (password : option string) : M unit :=
  c <- load_config ;;
  now <- read_clock ;;
  save_config (upsert ssid password now c).

Definition connect_to_network (ssid : string) (password : option string)
    : M bool :=
  r <- subprocess_run (connect_cmd ssid password) ;;
  match r with
  | Completed rc _ _ =>
      if rc =? 0 then save_network ssid password ;;; ret true
      else ret false
  | Raised => ret false
  end.

Definition connect_to_saved (ssid : string) : M bool :=
  saved <- get_saved_networks ;;
  match find (fun n => String.eqb (Net.ssid n) ssid) saved with
  | Some n => connect_to_network ssid (Net.password n)
  | None => ret false
  end.

(** The loop of [get_current_connection] over the lines. *)
Fixpoint first_active (lines : list string) : option string :=
  match lines with
  | [] => None
  | line :: rest =>
      if PyStr.startswith "yes:" line then PyStr.after_first ":" line
      else first_active rest
  end.

Definition current_of (r : completed) : option string :=
  match r with
  | Raised => None
  | Completed _ out _ => first_active (lines_of out)
  end.

Definition get_current_connection : M (option string) :=
  r <- subprocess_run active_cmd ;;
  ret (current_of r).

Definition disconnect : M bool :=
  r <- subprocess_run disconnect_cmd ;;
  ret (match r with Completed rc _ _ => rc =? 0 | Raised => false end).

(** The inner loop of [auto_connect] for one saved network; [true] is
    the [return True]. *)
Fixpoint try_available (ssid : string) (available : list Scan.t) : M bool :=
  match available with
  | [] => ret false
  | a :: rest =>
      if String.eqb ssid (Scan.ssid a) then
        ok <- connect_to_saved ssid ;;
        if ok then ret true else try_available ssid rest
      else try_available ssid rest
  end.

(** The outer loop of [auto_connect]. *)
Fixpoint try_saved (saved : list Net.t) (available : list Scan.t) : M bool :=
  match saved with
  | [] => ret false
  | s :: rest =>
      ok <- try_available (Net.ssid s) available ;;
      if ok then ret true else try_saved rest available
  end.

Definition auto_connect : M bool :=
  current <- get_current_connection ;;
  if PyStr.truthy_opt current then ret true
  else
    available <- scan_networks ;;
    saved <- get_saved_networks ;;
    try_saved saved available.
End Manager.


(** ** Specification vocabulary for the scan *)

(** What the second loop leaves under the key [k], starting from the value
    [cur] and reading the signals through [signal_value]. *)
Fixpoint pick (k : string) (cur : option Scan.t) (nets : list Scan.t)
    : option Scan.t :=
  match nets with
  | [] => cur
  | net :: rest =>
      if String.eqb (Scan.ssid net) k then
        match cur with
        | None => pick k (Some net) rest
        | Some old =>
            pick k (if signal_value net >? signal_value old
                    then Some net else cur) rest
        end
      else pick k cur rest
  end.

(** [e] stands in [nets] at a place where every earlier entry of its ssid
    is strictly weaker and every later one is not stronger. *)
Definition first_max (e : Scan.t) (nets : list Scan.t) : Prop :=
  exists l1 l2, nets = l1 ++ e :: l2 /\
    (forall r, In r l1 -> Scan.ssid r = Scan.ssid e ->
               signal_value r < signal_value e) /\
    (forall r, In r l2 -> Scan.ssid r = Scan.ssid e ->
               signal_value r <= signal_value e).

(** A line that the first loop keeps: it has a colon, at least three
    fields and a non-empty first field. *)
Definition well_formed (line : string) : bool :=
  PyStr.contains ":" line
  && (3 <=? List.length (PyStr.split ":" line))%nat
  && PyStr.truthy (hd "" (PyStr.split ":" line)).

Definition nl : string := String "010" "".

(** The scan result holds one entry for each ssid of a record of the
    output, that entry is a record of the greatest signal among those of
    its ssid, and the result is in descending order of signal. *)
Definition one_per_ssid (out : string) (res : list Scan.t) : Prop :=
  NoDup (map Scan.ssid res) /\
  (forall s, In s (map Scan.ssid res) <-> In s (map Scan.ssid (records out))) /\
  (forall e, In e res ->
     In e (records out) /\
     forall r, In r (records out) -> Scan.ssid r = Scan.ssid e ->
               signal_value r <= signal_value e) /\
  StronglySorted (desc signal_value) res.




(** A nonzero exit code of the scan command empties the scan result. *)
Definition nonzero_exit_gives_empty : Prop :=
  forall nmcli w rc out err,
    nmcli (calls w) scan_cmd = Completed rc out err -> rc <> 0 ->
    fst (scan_networks nmcli w) = [].

(** ** Scenarios *)

(** A fresh world over a given file. *)
Definition world_of (d : disk) : world :=
  {| file := d; writable := true; write_opens := false;
     calls := []; clock_reads := 0 |}.

(** A fresh world whose file cannot be written; [opens] tells whether the
    write fails only after the file has been opened. *)
Definition unwritable (d : disk) (opens : bool) : world :=
  {| file := d; writable := false; write_opens := opens;
     calls := []; clock_reads := 0 |}.

(** Two access points of one network, an open network, a hidden one. *)
Definition sample_scan : string :=
  ("Home:WPA2:55" ++ nl ++ "Cafe::80" ++ nl ++ "Home:WPA2:70" ++ nl ++ ":WPA2:90")%string.

(** Two access points of one network with the same signal. *)
Definition tie_scan : string :=
  ("Home:WPA2:80" ++ nl ++ "Home:WEP:80")%string.

(** A record whose signal is not a number after a good record. *)
Definition bad_signal_scan : string :=
  ("Home:WPA2:80" ++ nl ++ "Cafe:WPA2:abc")%string.

(** A line with two fields between two good records. *)
Definition short_line_scan : string :=
  ("Home:WPA2:80" ++ nl ++ "Cafe:70" ++ nl ++ "Work:WPA2:60")%string.

(** An [nmcli] that answers every command with the same output and code. *)
Definition always (rc : Z) (out : string) : list argv -> argv -> completed :=
  fun _ _ => Completed rc out "".

(** An [nmcli] whose answers depend on the command alone: the two listings
    print [active] and [scan], and connecting succeeds for the ssids that
    [ok] accepts. *)
Definition scripted (active scan : string) (ok : string -> bool)
    : list argv -> argv -> completed :=
  fun _ c =>
    match c with
    | "nmcli" :: "dev" :: "wifi" :: "connect" :: ssid :: _ =>
        if ok ssid then Completed 0 "" ""
        else Completed 10 "" "Error: Connection activation failed."
    | "nmcli" :: "dev" :: "disconnect" :: _ => Completed 0 "" ""
    | "nmcli" :: "-t" :: "-f" :: "ACTIVE,SSID" :: _ => Completed 0 active ""
    | "nmcli" :: "-t" :: "-f" :: "SSID,SECURITY,SIGNAL" :: _ => Completed 0 scan ""
    | _ => Raised
    end.

Definition epoch : nat -> Z := fun n => 1700000000 + Z.of_nat n.

(** ** Specification vocabulary for the store and for auto-connect *)

(** No record with a time stamp stands after a record without one. *)
Definition untimed_last (l : list Net.t) : Prop :=
  forall l1 x l2 y, l = l1 ++ x :: l2 -> Net.last_used x = None ->
    In y l2 -> Net.last_used y = None.

(** [connect_to_network] leaves the file as it was. *)
Definition connect_keeps_store : Prop :=
  forall nmcli time_time ssid password w,
    file (snd (connect_to_network nmcli time_time ssid password w)) = file w.

(** Whether a completed connect command reports success. *)
Definition succeeds (r : completed) : bool :=
  match r with Completed rc _ _ => rc =? 0 | Raised => false end.

(** The saved networks as [get_saved_networks] returns them for a file. *)
Definition saved_of (d : disk) : list Net.t :=
  sorted_desc recency_key
    (networks match d with Stored c => c | _ => default_config end).

(** The command [connect_to_saved] issues for [ssid], if any. *)
Definition saved_cmd (all : list Net.t) (ssid : string) : list argv :=
  match find (fun n => String.eqb (Net.ssid n) ssid) all with
  | Some n => [connect_cmd ssid (Net.password n)]
  | None => []
  end.

(** The connect commands of the two loops of [auto_connect], in the order
    of the loops, were every attempt to fail. *)
Definition plan (all saved : list Net.t) (available : list Scan.t) : list argv :=
  flat_map (fun s =>
    flat_map (fun a =>
      if String.eqb (Net.ssid s) (Scan.ssid a)
      then saved_cmd all (Net.ssid s) else []) available) saved.

(** The commands of [cmds] that are run after the history [h] when the
    run stops at the first success, and whether one succeeds. *)
Fixpoint attempted (nmcli : list argv -> argv -> completed)
    (h : list argv) (cmds : list argv) : list argv :=
  match cmds with
  | [] => []
  | c :: cs =>
      if succeeds (nmcli h c) then [c] else c :: attempted nmcli (h ++ [c]) cs
  end.

Fixpoint succeeded (nmcli : list argv -> argv -> completed)
    (h : list argv) (cmds : list argv) : bool :=
  match cmds with
  | [] => false
  | c :: cs => succeeds (nmcli h c) || succeeded nmcli (h ++ [c]) cs
  end.

(** A saved network has a live match. *)
Definition has_match (available : list Scan.t) (s : Net.t) : bool :=
  existsb (fun a => String.eqb (Net.ssid s) (Scan.ssid a)) available.

(** The state in which the loops of [auto_connect] start: the history, the
    scan result and the saved networks. *)
Definition loop_history (w : world) : list argv := calls w ++ [active_cmd; scan_cmd].

Definition live (nmcli : list argv -> argv -> completed) (w : world) : list Scan.t :=
  scan_result (nmcli (calls w ++ [active_cmd]) scan_cmd).

(** After the first connect attempt that fails no other one is made. *)
Definition single_attempt : Prop :=
  forall nmcli time_time w first more,
    filter is_connect
      (skipn (List.length (calls w)) (calls (snd (auto_connect nmcli time_time w))))
      = first :: more ->
    succeeds (nmcli (loop_history w) first) = false ->
    more = [] /\ fst (auto_connect nmcli time_time w) = false.

(** When [get_current_connection] returns a value, [auto_connect] reports
    success, runs no other command and leaves the file as it is. *)
Definition active_means_noop : Prop :=
  forall nmcli time_time w,
    fst (get_current_connection nmcli w) <> None ->
    fst (auto_connect nmcli time_time w) = true /\
    calls (snd (auto_connect nmcli time_time w)) = calls w ++ [active_cmd] /\
    file (snd (auto_connect nmcli time_time w)) = file w.

(** Two saved networks, ["A"] used more recently than ["B"]. *)
Definition two_saved : config :=
  {| networks := [ Net.mk "B" (Some "pw-b") (Some 1700000100);
                   Net.mk "A" (Some "pw-a") (Some 1700000200) ];
     last_connected := Some "A" |}.

(** Both are in range, ["B"] with the stronger signal. *)
Definition two_live : string := ("B:WPA2:90" ++ nl ++ "A:WPA2:40")%string.

(** A record without a time stamp stored after one stamped before 1970. *)
Definition old_stamp : config :=
  {| networks := [ Net.mk "Old" None (Some (-1)); Net.mk "Guest" None None ];
     last_connected := None |}.

(** The listing of a device associated with ["Home"], and the listing
    that reports an association without a name. *)
Definition active_home : string := ("no:Cafe" ++ nl ++ "yes:Home")%string.
Definition active_unnamed : string := "yes:".

Definition saved_A : Net.t := Net.mk "A" (Some "pw-a") (Some 1700000200).
Definition saved_B : Net.t := Net.mk "B" (Some "pw-b") (Some 1700000100).

(** [sep.join(fields)] for a one-character separator. *)
Fixpoint join (sep : ascii) (fields : list string) : string :=
  match fields with
  | [] => EmptyString
  | [x] => x
  | x :: rest => (x ++ String sep (join sep rest))%string
  end.

(** The entry the first loop builds from three fields. *)
Definition entry_of (ssid security signal : string) : Scan.t :=
  {| Scan.ssid := ssid;
     Scan.security := if PyStr.truthy security then security else "Open";
     Scan.signal := if PyStr.truthy signal then signal else "0" |}.

(** No character [c] in any of the three fields of an entry. *)
Definition free_of (c : ascii) (e : Scan.t) : bool :=
  negb (PyStr.contains c (Scan.ssid e))
  && negb (PyStr.contains c (Scan.security e))
  && negb (PyStr.contains c (Scan.signal e)).

(** ** The menu ([main]) *)

(** Standard input is the list of its remaining lines; [input()] takes the
    first one and raises [EOFError] when there is none.  The loop catches
    every [Exception], [EOFError] included, and goes round again; a
    [KeyboardInterrupt] is not modelled. *)
Inductive flow := Continue | Break.

(** How [main] ends: by [sys.exit], by leaving the loop, or not within the
    iterations looked at. *)
Inductive ending := Exited (status : Z) | Returned | Running.

Section Menu.
Variable nmcli : list argv -> argv -> completed.
Variable time_time : nat -> Z.

(** Choice 1 after a non-empty scan: the [try] block around the selection.
    The result is what is left of standard input. *)
Definition select_scanned (networks : list Scan.t) (stdin : list string)
    : M (list string) :=
  match stdin with
  | [] => ret []
  | line :: stdin1 =>
      match PyStr.int line with
      | None => ret stdin1
      | Some k =>
          let selection := k - 1 in
          if (0 <=? selection) && (selection <? Z.of_nat (List.length networks))
          then
            match nth_error networks (Z.to_nat selection) with
            | None => ret stdin1
            | Some selected =>
                if negb (String.eqb (Scan.security selected) "Open") then
                  match stdin1 with
                  | [] => ret []
                  | password :: stdin2 =>
                      connect_to_network nmcli time_time
                        (Scan.ssid selected) (Some password) ;;;
                      ret stdin2
                  end
                else
                  connect_to_network nmcli time_time (Scan.ssid selected) None ;;;
                  ret stdin1
            end
          else ret stdin1
      end
  end.

(** Choice 2 after a non-empty list of saved networks. *)
Definition select_saved (saved : list Net.t) (stdin : list string)
    : M (list string) :=
  match stdin with
  | [] => ret []
  | line :: stdin1 =>
      match PyStr.int line with
      | None => ret stdin1
      | Some k =>
          let selection := k - 1 in
          if (0 <=? selection) && (selection <? Z.of_nat (List.length saved))
          then
            match nth_error saved (Z.to_nat selection) with
            | None => ret stdin1
            | Some selected =>
                connect_to_saved nmcli time_time (Net.ssid selected) ;;;
                ret stdin1
            end
          else ret stdin1
      end
  end.

(** One round of the [while True] loop. *)
Definition menu_round (stdin : list string) : M (flow * list string) :=
  match stdin with
  | [] => ret (Continue, [])
  | line :: stdin1 =>
      let choice := PyStr.strip line in
      if String.eqb choice "1" then
        networks <- scan_networks nmcli ;;
        match networks with
        | [] => ret (Continue, stdin1)
        | _ :: _ =>
            rest <- select_scanned networks stdin1 ;;
            ret (Continue, rest)
        end
      else if String.eqb choice "2" then
        saved <- get_saved_networks ;;
        match saved with
        | [] => ret (Continue, stdin1)
        | _ :: _ =>
            rest <- select_saved saved stdin1 ;;
            ret (Continue, rest)
        end
      else if String.eqb choice "3" then
        get_saved_networks ;;; ret (Continue, stdin1)
      else if String.eqb choice "4" then
        get_current_connection nmcli ;;; ret (Continue, stdin1)
      else if String.eqb choice "5" then
        auto_connect nmcli time_time ;;; ret (Continue, stdin1)
      else if String.eqb choice "6" then
        disconnect nmcli ;;; ret (Continue, stdin1)
      else if String.eqb choice "7" then ret (Break, stdin1)
      else ret (Continue, stdin1)
  end.

(** The loop, for at most [rounds] rounds: [Some rest] when it is left by
    [break] with [rest] unread, [None] when it is still running. *)
Fixpoint menu_loop (rounds : nat) (stdin : list string)
    : M (option (list string)) :=
  match rounds with
  | O => ret None
  | S n =>
      r <- menu_round stdin ;;
      match r with
      | (Break, rest) => ret (Some rest)
      | (Continue, rest) => menu_loop n rest
      end
  end.

(** [main]: the manager is built, which creates the file where there is
    none, before the privileges are checked ([euid] is [os.geteuid()]). *)
Definition main (euid : Z) (rounds : nat) (stdin : list string) : M ending :=
  ensure_config_exists ;;;
  if negb (euid =? 0) then ret (Exited 1)
  else
    r <- menu_loop rounds stdin ;;
    ret (match r with Some _ => Returned | None => Running end).
End Menu.

(** [rest] is what is left of [stdin] after some lines have been read. *)
Definition unread (rest stdin : list string) : Prop :=
  exists taken, stdin = taken ++ rest.
Example int_examples :
  map PyStr.int ["80"; " 7 "; "+5"; "-5"; "1_0"; ""; "abc"; "1__0"; "5.0"; "+ 5"]
  = [Some 80; Some 7; Some 5; Some (-5); Some 10; None; None; None; None; None].
Proof. reflexivity. Qed.

Example split_examples :
  PyStr.split "010" (PyStr.strip "") = [""] /\
  PyStr.split ":" "Home:WPA2:80" = ["Home"; "WPA2"; "80"] /\
  PyStr.after_first ":" "yes:" = Some "".
Proof. repeat split; reflexivity. Qed.

Example sorted_desc_stable :
  sorted_desc fst [(1, "a"); (2, "b"); (1, "c"); (2, "d")]
  = [(2, "b"); (2, "d"); (1, "a"); (1, "c")].
Proof. reflexivity. Qed.

(** ** The stable descending sort *)

Section StableSortFacts.
Context {A : Type} (key : A -> Z).

Lemma insert_desc_perm x l : Permutation (x :: l) (insert_desc key x l).
Proof.
  induction l as [|y l IH]; simpl; [reflexivity|].
  destruct (key y <=? key x); [reflexivity|].
  rewrite perm_swap. now apply perm_skip.
Qed.

Lemma sorted_desc_perm l : Permutation l (sorted_desc key l).
Proof.
  induction l as [|x l IH]; simpl; [constructor|].
  rewrite <- insert_desc_perm. now apply perm_skip.
Qed.

Lemma sorted_desc_In x l : In x (sorted_desc key l) <-> In x l.
Proof.
  split; apply Permutation_in; [symmetry|]; apply sorted_desc_perm.
Qed.

Lemma insert_desc_sorted x l :
  StronglySorted (desc key) l -> StronglySorted (desc key) (insert_desc key x l).
Proof.
  induction 1 as [|y l Hs IH Hy]; simpl.
  - repeat constructor.
  - destruct (key y <=? key x) eqn:E.
    + apply Z.leb_le in E. constructor; [now constructor|].
      constructor; [exact E|].
      eapply Forall_impl; [|exact Hy]. unfold desc. intros; lia.
    + apply Z.leb_gt in E. constructor; [exact IH|].
      eapply Permutation_Forall; [apply insert_desc_perm|].
      constructor; [unfold desc; lia|exact Hy].
Qed.

Lemma sorted_desc_sorted l : StronglySorted (desc key) (sorted_desc key l).
Proof.
  induction l; simpl; [constructor|now apply insert_desc_sorted].
Qed.

(** Stability: elements that keep a list sorted are left where they are. *)
Lemma sorted_desc_id l : StronglySorted (desc key) l -> sorted_desc key l = l.
Proof.
  induction 1 as [|x l Hs IH Hx]; simpl; [reflexivity|].
  rewrite IH. destruct l as [|y l]; simpl; [reflexivity|].
  inversion Hx as [|? ? Hxy _]; subst. unfold desc in Hxy.
  apply Z.leb_le in Hxy. now rewrite Hxy.
Qed.
End StableSortFacts.

(** ** The dictionary of the scan *)

Lemma dict_get_set_same k v d : dict_get k (dict_set k v d) = Some v.
Proof.
  induction d as [|[k' v'] d IH]; simpl.
  - now rewrite String.eqb_refl.
  - destruct (String.eqb k' k) eqn:E; simpl.
    + now rewrite String.eqb_refl.
    + now rewrite E.
Qed.

Lemma dict_get_set_other k k' v d :
  k <> k' -> dict_get k' (dict_set k v d) = dict_get k' d.
Proof.
  intros Hk. induction d as [|[k0 v0] d IH]; simpl.
  - apply String.eqb_neq in Hk. now rewrite Hk.
  - destruct (String.eqb k0 k) eqn:E; simpl.
    + apply String.eqb_eq in E. subst k0.
      apply String.eqb_neq in Hk. now rewrite Hk.
    + now rewrite IH.
Qed.

Lemma dict_get_None k d : dict_get k d = None <-> ~ In k (map fst d).
Proof.
  induction d as [|[k' v'] d IH]; simpl; [tauto|].
  destruct (String.eqb k' k) eqn:E.
  - apply String.eqb_eq in E. split; [discriminate|tauto].
  - apply String.eqb_neq in E. rewrite IH. tauto.
Qed.

Lemma dict_get_In k v d : dict_get k d = Some v -> In (k, v) d.
Proof.
  induction d as [|[k' v'] d IH]; simpl; [discriminate|].
  destruct (String.eqb k' k) eqn:E.
  - apply String.eqb_eq in E. intros [= ->]. subst. now left.
  - intros H. right. now apply IH.
Qed.

Lemma dict_In_get k v d : NoDup (map fst d) -> In (k, v) d -> dict_get k d = Some v.
Proof.
  induction d as [|[k' v'] d IH]; simpl; [tauto|].
  intros Hnd [H|H].
  - injection H as -> ->. now rewrite String.eqb_refl.
  - inversion Hnd as [|? ? Hk Hnd']; subst.
    destruct (String.eqb k' k) eqn:E; [|now apply IH].
    apply String.eqb_eq in E. subst k'. exfalso. apply Hk.
    apply in_map_iff. now exists (k, v).
Qed.

Lemma dict_set_keys k v d :
  map fst (dict_set k v d)
  = match dict_get k d with Some _ => map fst d | None => map fst d ++ [k] end.
Proof.
  induction d as [|[k' v'] d IH]; simpl; [reflexivity|].
  destruct (String.eqb k' k) eqn:E; simpl.
  - apply String.eqb_eq in E. now subst.
  - rewrite IH. now destruct (dict_get k d).
Qed.

Lemma dict_set_NoDup k v d : NoDup (map fst d) -> NoDup (map fst (dict_set k v d)).
Proof.
  intros H. rewrite dict_set_keys. destruct (dict_get k d) eqn:G; [exact H|].
  apply dict_get_None in G.
  apply NoDup_rev in H. rewrite <- (rev_involutive (map fst d ++ [k])).
  apply NoDup_rev. rewrite rev_app_distr. simpl. constructor; [|exact H].
  now rewrite <- in_rev.
Qed.

Lemma signal_value_int e z : PyStr.int (Scan.signal e) = Some z -> signal_value e = z.
Proof. unfold signal_value. now intros ->. Qed.

(** The loop computes [pick] under every key. *)
Lemma unique_loop_get nets : forall d d',
  unique_loop nets d = Some d' ->
  forall k, dict_get k d' = pick k (dict_get k d) nets.
Proof.
  induction nets as [|net rest IH]; simpl; intros d d' H k.
  - now injection H as ->.
  - destruct (dict_get (Scan.ssid net) d) as [old|] eqn:G.
    + destruct (PyStr.int (Scan.signal net)) as [a|] eqn:Ea; [|discriminate].
      destruct (PyStr.int (Scan.signal old)) as [b|] eqn:Eb; [|discriminate].
      rewrite (IH _ _ H k).
      rewrite (signal_value_int _ _ Ea).
      destruct (String.eqb (Scan.ssid net) k) eqn:E.
      * apply String.eqb_eq in E. subst k. rewrite G.
        rewrite (signal_value_int _ _ Eb).
        destruct (a >? b); [now rewrite dict_get_set_same|now rewrite G].
      * apply String.eqb_neq in E.
        destruct (a >? b); [now rewrite dict_get_set_other|reflexivity].
    + rewrite (IH _ _ H k).
      destruct (String.eqb (Scan.ssid net) k) eqn:E.
      * apply String.eqb_eq in E. subst k. now rewrite G, dict_get_set_same.
      * apply String.eqb_neq in E. now rewrite dict_get_set_other.
Qed.

Lemma unique_loop_NoDup nets : forall d d',
  unique_loop nets d = Some d' -> NoDup (map fst d) -> NoDup (map fst d').
Proof.
  induction nets as [|net rest IH]; simpl; intros d d' H Hnd.
  - now injection H as <-.
  - destruct (dict_get (Scan.ssid net) d) as [old|].
    + destruct (PyStr.int (Scan.signal net)) as [a|]; [|discriminate].
      destruct (PyStr.int (Scan.signal old)) as [b|]; [|discriminate].
      apply (IH _ _ H). destruct (a >? b); [now apply dict_set_NoDup|exact Hnd].
    + apply (IH _ _ H). now apply dict_set_NoDup.
Qed.

(** The loop does not raise when every signal it may read is numeric. *)
Lemma unique_loop_total nets : forall d,
  Forall (fun e => numeric e = true) nets ->
  Forall (fun kv => numeric (snd kv) = true) d ->
  exists d', unique_loop nets d = Some d'.
Proof.
  assert (Hset : forall k v d, numeric v = true ->
            Forall (fun kv => numeric (snd kv) = true) d ->
            Forall (fun kv => numeric (snd kv) = true) (dict_set k v d)).
  { intros k v d Hv. induction 1 as [|[k' v'] d Hx Hd IHd]; simpl.
    - now repeat constructor.
    - destruct (String.eqb k' k); constructor; auto. }
  induction nets as [|net rest IH]; simpl; intros d Hn Hd.
  - now exists d.
  - inversion Hn as [|? ? Hnet Hrest]; subst.
    destruct (dict_get (Scan.ssid net) d) as [old|] eqn:G.
    + apply dict_get_In in G.
      rewrite Forall_forall in Hd. specialize (Hd _ G) as Hold. simpl in Hold.
      assert (Hnet' := Hnet). unfold numeric in Hnet', Hold.
      destruct (PyStr.int (Scan.signal net)) as [a|]; [|discriminate].
      destruct (PyStr.int (Scan.signal old)) as [b|]; [|discriminate].
      apply IH; [exact Hrest|].
      destruct (a >? b); [|now apply Forall_forall].
      apply Hset; [exact Hnet|apply Forall_forall; exact Hd].
    + apply IH; [exact Hrest|]. now apply Hset.
Qed.

(** ** What [pick] selects *)

Lemma pick_spec k nets : forall cur e,
  pick k cur nets = Some e ->
  (cur = Some e /\
   forall r, In r nets -> Scan.ssid r = k -> signal_value r <= signal_value e)
  \/
  (Scan.ssid e = k /\
   exists l1 l2, nets = l1 ++ e :: l2 /\
     (forall r, In r l1 -> Scan.ssid r = k -> signal_value r < signal_value e) /\
     (forall c, cur = Some c -> signal_value c < signal_value e) /\
     (forall r, In r l2 -> Scan.ssid r = k -> signal_value r <= signal_value e)).
Proof.
  induction nets as [|net rest IH]; simpl; intros cur e H.
  - left. split; [exact H|]. intros r [].
  - destruct (String.eqb (Scan.ssid net) k) eqn:E.
    + apply String.eqb_eq in E.
      destruct cur as [old|].
      * destruct (signal_value net >? signal_value old) eqn:Cmp.
        -- apply Z.gtb_lt in Cmp.
           destruct (IH _ _ H) as [[Heq Hle]|[Hk (l1 & l2 & -> & Hl1 & Hc & Hl2)]].
           ++ injection Heq as <-. right. split; [exact E|].
              exists [], rest. repeat split; auto.
              ** intros r [].
              ** intros c [= <-]. lia.
           ++ right. split; [exact Hk|].
              exists (net :: l1), l2. repeat split; auto.
              ** intros r [<-|Hr] Hs; [apply Hc; reflexivity|now apply Hl1].
              ** intros c [= <-]. specialize (Hc net eq_refl). lia.
        -- assert (Hno : signal_value net <= signal_value old).
           { destruct (Z.gtb_spec (signal_value net) (signal_value old));
               [discriminate|lia]. }
           destruct (IH _ _ H) as [[Heq Hle]|[Hk (l1 & l2 & -> & Hl1 & Hc & Hl2)]].
           ++ injection Heq as <-. left. split; [reflexivity|].
              intros r [<-|Hr] Hs; [exact Hno|now apply Hle].
           ++ right. split; [exact Hk|].
              exists (net :: l1), l2. repeat split; auto.
              intros r [<-|Hr] Hs; [|now apply Hl1].
              specialize (Hc old eq_refl). lia.
      * destruct (IH _ _ H) as [[Heq Hle]|[Hk (l1 & l2 & -> & Hl1 & Hc & Hl2)]].
        -- injection Heq as <-. right. split; [exact E|].
           exists [], rest. repeat split; auto.
           ++ intros r [].
           ++ intros c Hc. discriminate.
        -- right. split; [exact Hk|].
           exists (net :: l1), l2. repeat split; auto.
           ++ intros r [<-|Hr] Hs; [apply Hc; reflexivity|now apply Hl1].
           ++ intros c Hc'. discriminate.
    + apply String.eqb_neq in E.
      destruct (IH _ _ H) as [[Heq Hle]|[Hk (l1 & l2 & -> & Hl1 & Hc & Hl2)]].
      * left. split; [exact Heq|].
        intros r [<-|Hr] Hs; [contradiction|now apply Hle].
      * right. split; [exact Hk|].
        exists (net :: l1), l2. repeat split; auto.
        intros r [<-|Hr] Hs; [contradiction|now apply Hl1].
Qed.

Lemma pick_first_max k nets e :
  pick k None nets = Some e -> Scan.ssid e = k /\ first_max e nets.
Proof.
  intros H. destruct (pick_spec _ _ _ _ H) as [[Heq _]|[Hk (l1 & l2 & Hn & Hl1 & _ & Hl2)]];
    [discriminate|].
  split; [exact Hk|]. exists l1, l2. rewrite Hk. auto.
Qed.

Lemma pick_Some k nets : forall c, exists e, pick k (Some c) nets = Some e.
Proof.
  induction nets as [|net rest IH]; simpl; intros c; [now exists c|].
  destruct (String.eqb (Scan.ssid net) k); [|apply IH].
  destruct (signal_value net >? signal_value c); apply IH.
Qed.

Lemma pick_found k nets :
  In k (map Scan.ssid nets) -> exists e, pick k None nets = Some e.
Proof.
  induction nets as [|net rest IH]; simpl; [tauto|].
  intros [H|H].
  - subst k. rewrite String.eqb_refl. apply pick_Some.
  - destruct (String.eqb (Scan.ssid net) k); [apply pick_Some|now apply IH].
Qed.

Lemma first_max_In e nets : first_max e nets -> In e nets.
Proof.
  intros (l1 & l2 & -> & _). apply in_or_app. right. now left.
Qed.

(** ** The result of a scan *)

Lemma scan_output_spec out res :
  scan_output out = Some res ->
  NoDup (map Scan.ssid res) /\
  (forall e, In e res <-> pick (Scan.ssid e) None (records out) = Some e) /\
  StronglySorted (desc signal_value) res.
Proof.
  unfold scan_output, sort_by_signal.
  destruct (unique_loop (records out) []) as [d|] eqn:U; [|discriminate].
  destruct (forallb numeric (map snd d)); [|discriminate].
  intros [= <-].
  assert (Hnd : NoDup (map fst d)).
  { apply (unique_loop_NoDup _ _ _ U). constructor. }
  assert (Hget : forall k, dict_get k d = pick k None (records out)).
  { intros k. apply (unique_loop_get _ _ _ U k). }
  assert (Hkey : forall k v, In (k, v) d -> Scan.ssid v = k).
  { intros k v Hin. apply (dict_In_get _ _ _ Hnd) in Hin.
    rewrite Hget in Hin. now apply pick_first_max in Hin. }
  split; [|split].
  - eapply Permutation_NoDup.
    + apply Permutation_map. apply sorted_desc_perm.
    + replace (map Scan.ssid (map snd d)) with (map fst d); [exact Hnd|].
      rewrite map_map. apply map_ext_in. intros [k v] Hin. simpl.
      symmetry. now apply Hkey.
  - intros e. rewrite sorted_desc_In, in_map_iff. split.
    + intros ([k v] & <- & Hin). simpl.
      rewrite (Hkey _ _ Hin), <- Hget. now apply dict_In_get.
    + intros H. rewrite <- Hget in H. apply dict_get_In in H.
      now exists (Scan.ssid e, e).
  - apply sorted_desc_sorted.
Qed.

Lemma scan_output_total out :
  Forall (fun e => numeric e = true) (records out) ->
  exists res, scan_output out = Some res.
Proof.
  intros Hn. unfold scan_output, sort_by_signal.
  destruct (unique_loop_total (records out) [] Hn) as [d U]; [constructor|].
  rewrite U.
  assert (Hv : forallb numeric (map snd d) = true).
  { apply forallb_forall. intros v Hin. apply in_map_iff in Hin.
    destruct Hin as ([k v'] & <- & Hin). simpl.
    apply dict_In_get in Hin.
    2:{ apply (unique_loop_NoDup _ _ _ U). constructor. }
    rewrite (unique_loop_get _ _ _ U k) in Hin. simpl in Hin.
    apply pick_first_max in Hin. destruct Hin as [_ Hin].
    apply first_max_In in Hin. rewrite Forall_forall in Hn. now apply Hn. }
  rewrite Hv. eauto.
Qed.


Lemma parse_line_ssid line e : In e (parse_line line) -> Scan.ssid e <> "".
Proof.
  unfold parse_line.
  destruct (PyStr.truthy line && PyStr.contains ":" line); [|intros []].
  destruct (PyStr.split ":" line) as [|p0 [|p1 [|p2 ps]]]; try (intros []).
  destruct p0 as [|c p0]; simpl; [intros []|].
  intros [<-|[]]. simpl. discriminate.
Qed.

Lemma records_app out l1 l2 :
  lines_of out = l1 ++ l2 ->
  records out = flat_map parse_line l1 ++ flat_map parse_line l2.
Proof. unfold records. intros ->. apply flat_map_app. Qed.

(** ** Claims about the scan *)

Lemma scan_networks_fst nmcli w :
  fst (scan_networks nmcli w) = scan_result (nmcli (calls w) scan_cmd).
Proof. reflexivity. Qed.

Lemma scan_result_one_per_ssid rc out err :
  forallb numeric (records out) = true ->
  one_per_ssid out (scan_result (Completed rc out err)) /\
  Forall (fun e => Scan.ssid e <> "") (scan_result (Completed rc out err)).
Proof.
  intros Hn. rewrite forallb_forall in Hn.
  assert (Hn' : Forall (fun e => numeric e = true) (records out))
    by now apply Forall_forall.
  destruct (scan_output_total out Hn') as [res Hres].
  simpl. rewrite Hres.
  destruct (scan_output_spec _ _ Hres) as (Hnd & Hin & Hs).
  assert (Hrec : forall e, In e res -> first_max e (records out)).
  { intros e He. apply Hin in He. now apply pick_first_max in He. }
  split; [split; [exact Hnd|split; [|split; [|exact Hs]]]|].
  - intros s. split.
    + intros Hs'. apply in_map_iff in Hs'. destruct Hs' as (e & <- & He).
      apply in_map. apply first_max_In. now apply Hrec.
    + intros Hs'. destruct (pick_found _ _ Hs') as [e He].
      destruct (pick_first_max _ _ _ He) as [Hk _]. subst s.
      apply in_map. now apply Hin.
  - intros e He. split; [apply first_max_In; now apply Hrec|].
    destruct (Hrec e He) as (l1 & l2 & Heq & Hl1 & Hl2).
    intros r Hr Hsame. rewrite Heq in Hr.
    apply in_app_or in Hr. destruct Hr as [Hr|[<-|Hr]].
    + specialize (Hl1 r Hr Hsame). lia.
    + lia.
    + now apply Hl2.
  - apply Forall_forall. intros e He.
    apply Hrec, first_max_In in He. unfold records in He.
    apply in_flat_map in He. destruct He as (line & _ & He).
    now apply parse_line_ssid in He.
Qed.

(** C5, as the code has it.  When every record of the scan output (a line
    with at least three colon-separated fields and a non-empty ssid) has a
    numeric signal field, the result of [scan_networks] has exactly one
    entry per ssid of those records, no entry has an empty ssid, each
    entry is a record carrying the greatest signal seen for its ssid, and
    the result is in descending order of signal. *)
Theorem scan_dedup_max_sorted nmcli w rc out err :
  nmcli (calls w) scan_cmd = Completed rc out err ->
  forallb numeric (records out) = true ->
  one_per_ssid out (fst (scan_networks nmcli w)) /\
  Forall (fun e => Scan.ssid e <> "") (fst (scan_networks nmcli w)).
Proof.
  intros Hrun Hn. rewrite scan_networks_fst, Hrun.
  now apply scan_result_one_per_ssid.
Qed.

Lemma scan_dedup_max_sorted_witness :
  one_per_ssid sample_scan
    (fst (scan_networks (always 0 sample_scan) (world_of Absent))) /\
  Forall (fun e => Scan.ssid e <> "")
    (fst (scan_networks (always 0 sample_scan) (world_of Absent))).
Proof.
  apply (scan_dedup_max_sorted (always 0 sample_scan) (world_of Absent)
           0 sample_scan ""); reflexivity.
Defined.

Example scan_sample :
  fst (scan_networks (always 0 sample_scan) (world_of Absent))
  = [ Scan.mk "Cafe" "Open" "80"; Scan.mk "Home" "WPA2" "70" ].
Proof. reflexivity. Qed.

(** C5 as stated fails: one record with a signal that is not a number makes
    [int] raise, the [except] branch returns the empty list, and the ssids
    of the output have no entry in the result. *)
Lemma scan_one_per_ssid_fails :
  ~ one_per_ssid "Home:WPA2:abc"
      (fst (scan_networks (always 0 "Home:WPA2:abc") (world_of Absent))).
Proof.
  intros (_ & Hin & _). specialize (Hin "Home").
  destruct Hin as [_ Hin]. apply Hin. now left.
Qed.

(** C10.  An entry of the scan result stands in the records of the output
    at a place where every earlier record of its ssid has a strictly
    smaller signal (and no later one a greater signal): among records of
    one ssid with equal signals the first one is kept, whole. *)
Theorem scan_tie_keeps_first nmcli w rc out err e :
  nmcli (calls w) scan_cmd = Completed rc out err ->
  In e (fst (scan_networks nmcli w)) ->
  first_max e (records out).
Proof.
  intros Hrun. rewrite scan_networks_fst, Hrun. simpl.
  destruct (scan_output out) as [res|] eqn:Hres; [|intros []].
  intros He. destruct (scan_output_spec _ _ Hres) as (_ & Hin & _).
  apply Hin in He. now apply pick_first_max in He.
Qed.

Lemma scan_tie_keeps_first_witness :
  first_max (Scan.mk "Home" "WPA2" "80") (records tie_scan).
Proof.
  apply (scan_tie_keeps_first (always 0 tie_scan) (world_of Absent)
           0 tie_scan "" (Scan.mk "Home" "WPA2" "80")).
  - reflexivity.
  - left. reflexivity.
Defined.

Example scan_tie :
  fst (scan_networks (always 0 tie_scan) (world_of Absent))
  = [ Scan.mk "Home" "WPA2" "80" ].
Proof. reflexivity. Qed.





Example scan_short_line :
  lines_of short_line_scan = ["Home:WPA2:80"; "Cafe:70"; "Work:WPA2:60"] /\
  filter well_formed (lines_of short_line_scan)
  = ["Home:WPA2:80"; "Work:WPA2:60"] /\
  fst (scan_networks (always 0 short_line_scan) (world_of Absent))
  = [ Scan.mk "Home" "WPA2" "80"; Scan.mk "Work" "WPA2" "60" ].
Proof. repeat split; reflexivity. Qed.

(** A misshapen line that is the only line leaves the empty result.  The
    lines are cut from the stripped output: a blank at the start of a
    line is part of its ssid unless the line is the first of the output. *)
Example scan_only_misshapen_line :
  fst (scan_networks (always 0 "Cafe:70") (world_of Absent)) = [] /\
  fst (scan_networks (always 0 ("Cafe:70" ++ nl ++ " Home:WPA2:80")%string)
         (world_of Absent))
  = [ Scan.mk " Home" "WPA2" "80" ] /\
  fst (scan_networks (always 0 " Home:WPA2:80") (world_of Absent))
  = [ Scan.mk "Home" "WPA2" "80" ].
Proof. repeat split; reflexivity. Qed.


Example scan_bad_signal :
  fst (scan_networks (always 0 bad_signal_scan) (world_of Absent)) = [] /\
  fst (scan_networks (always 0 "Home:WPA2:80") (world_of Absent))
  = [ Scan.mk "Home" "WPA2" "80" ].
Proof. split; reflexivity. Qed.

(** C8, as the code has it.  The scan returns the empty list when the
    command raises (timeout, or it cannot be started) and when its output
    holds no record; the exit code is not read: whatever it is, the result
    is what the output parses to. *)
Theorem scan_ignores_exit_code nmcli w :
  fst (scan_networks nmcli w)
  = match nmcli (calls w) scan_cmd with
    | Raised => []
    | Completed _ out _ =>
        match records out with
        | [] => []
        | _ :: _ => scan_result (Completed 0 out "")
        end
    end.
Proof.
  rewrite scan_networks_fst.
  destruct (nmcli (calls w) scan_cmd) as [rc out err|]; [|reflexivity].
  simpl. unfold scan_output.
  destruct (records out); reflexivity.
Qed.

(** C8 as stated fails: with exit code 1 and a record on the output the
    scan returns that record. *)
Lemma scan_nonzero_exit_not_empty : ~ nonzero_exit_gives_empty.
Proof.
  intros H.
  specialize (H (always 1 "Home:WPA2:80") (world_of Absent) 1 "Home:WPA2:80" ""
                eq_refl).
  assert (H1 : 1 <> 0) by lia. specialize (H H1). discriminate H.
Qed.

(** ** The store and the connector *)

Lemma get_saved_networks_eq w : get_saved_networks w = (saved_of (file w), w).
Proof. reflexivity. Qed.

Lemma connect_to_network_eq nmcli time_time ssid password w :
  connect_to_network nmcli time_time ssid password w
  = let ok := succeeds (nmcli (calls w) (connect_cmd ssid password)) in
    (ok,
     {| file := if ok
                then written (upsert ssid password (time_time (clock_reads w))
                                (fst (load_config w))) w
                else file w;
        writable := writable w;
        write_opens := write_opens w;
        calls := calls w ++ [connect_cmd ssid password];
        clock_reads := if ok then S (clock_reads w) else clock_reads w |}).
Proof.
  unfold connect_to_network, bind, subprocess_run.
  destruct (nmcli (calls w) (connect_cmd ssid password)) as [rc out err|];
    simpl; [|reflexivity].
  destruct (rc =? 0); reflexivity.
Qed.

Lemma connect_to_saved_eq nmcli time_time ssid w :
  connect_to_saved nmcli time_time ssid w
  = match find (fun n => String.eqb (Net.ssid n) ssid) (saved_of (file w)) with
    | Some n => connect_to_network nmcli time_time ssid (Net.password n) w
    | None => (false, w)
    end.
Proof.
  unfold connect_to_saved, bind. rewrite get_saved_networks_eq.
  destruct (find _ (saved_of (file w))); reflexivity.
Qed.

Lemma get_current_connection_eq nmcli w :
  get_current_connection nmcli w
  = (current_of (nmcli (calls w) active_cmd),
     {| file := file w; writable := writable w;
        write_opens := write_opens w;
        calls := calls w ++ [active_cmd]; clock_reads := clock_reads w |}).
Proof. reflexivity. Qed.

Lemma auto_connect_unfold nmcli time_time w :
  auto_connect nmcli time_time w
  = if PyStr.truthy_opt (current_of (nmcli (calls w) active_cmd))
    then (true, {| file := file w; writable := writable w;
                   write_opens := write_opens w;
                   calls := calls w ++ [active_cmd];
                   clock_reads := clock_reads w |})
    else try_saved nmcli time_time (saved_of (file w)) (live nmcli w)
           {| file := file w; writable := writable w;
              write_opens := write_opens w;
              calls := loop_history w; clock_reads := clock_reads w |}.
Proof.
  unfold auto_connect, bind. rewrite get_current_connection_eq.
  destruct (PyStr.truthy_opt (current_of (nmcli (calls w) active_cmd)));
    [reflexivity|].
  unfold scan_networks, bind, subprocess_run, ret, loop_history, live. simpl.
  now rewrite <- app_assoc.
Qed.

Lemma has_match_ssid available x s :
  Net.ssid x = Net.ssid s -> has_match available x = has_match available s.
Proof. unfold has_match. now intros ->. Qed.

Lemma find_saved_In ssid d n :
  find (fun m => String.eqb (Net.ssid m) ssid) (saved_of d) = Some n ->
  In n (networks match d with Stored c => c | _ => default_config end) /\
  Net.ssid n = ssid.
Proof.
  intros H. apply find_some in H. destruct H as [Hin He].
  apply String.eqb_eq in He. split; [|exact He].
  unfold saved_of in Hin. now apply sorted_desc_In in Hin.
Qed.

Lemma try_available_calls nmcli time_time ssid available : forall w,
  exists mid,
    calls (snd (try_available nmcli time_time ssid available w))
    = calls w ++ mid.
Proof.
  induction available as [|a rest IH]; intros w; simpl.
  - exists []. now rewrite app_nil_r.
  - destruct (String.eqb ssid (Scan.ssid a)); [|apply IH].
    unfold bind. rewrite connect_to_saved_eq.
    destruct (find _ (saved_of (file w))) as [n|]; [|apply IH].
    rewrite connect_to_network_eq. cbv zeta.
    destruct (succeeds (nmcli (calls w) (connect_cmd ssid (Net.password n)))).
    + simpl. eauto.
    + match goal with
      | |- context [try_available _ _ _ _ ?w1] => destruct (IH w1) as [mid Hm]
      end.
      rewrite Hm. simpl. exists (connect_cmd ssid (Net.password n) :: mid).
      now rewrite <- app_assoc.
Qed.

(** The inner loop: the disk flags stay; a run without success leaves file
    and clock alone; a run that succeeds ends with one successful
    [connect_to_network] for the ssid, which has a live match, with the
    credential of its stored record, and the outcome of the loop is the
    outcome of that call. *)
Lemma try_available_frame nmcli time_time ssid available : forall w,
  let r := try_available nmcli time_time ssid available w in
  writable (snd r) = writable w /\
  write_opens (snd r) = write_opens w /\
  (fst r = false ->
   file (snd r) = file w /\ clock_reads (snd r) = clock_reads w) /\
  (fst r = true ->
   exists n pre,
     find (fun m => String.eqb (Net.ssid m) ssid) (saved_of (file w)) = Some n /\
     existsb (fun a => String.eqb ssid (Scan.ssid a)) available = true /\
     r = connect_to_network nmcli time_time ssid (Net.password n)
           {| file := file w; writable := writable w;
              write_opens := write_opens w;
              calls := calls w ++ pre; clock_reads := clock_reads w |}).
Proof.
  induction available as [|a rest IH]; intros w; simpl.
  - repeat split; auto; discriminate.
  - destruct (String.eqb ssid (Scan.ssid a)) eqn:E; simpl; [|exact (IH w)].
    unfold bind. rewrite connect_to_saved_eq.
    destruct (find _ (saved_of (file w))) as [n|] eqn:F.
    2:{ destruct (IH w) as (I1 & I2 & I3 & I4).
        split; [exact I1|]. split; [exact I2|]. split; [exact I3|].
        intros Ht. destruct (I4 Ht) as (n & pre & Hn & _). congruence. }
    destruct (connect_to_network nmcli time_time ssid (Net.password n) w)
      as [ok w1] eqn:C.
    pose proof C as C'. rewrite connect_to_network_eq in C'. cbv zeta in C'.
    injection C' as Hok Hw1.
    destruct ok.
    + simpl. split; [now rewrite <- Hw1|]. split; [now rewrite <- Hw1|].
      split; [discriminate|].
      intros _. exists n, []. split; [reflexivity|]. split; [reflexivity|].
      rewrite app_nil_r.
      transitivity (connect_to_network nmcli time_time ssid (Net.password n) w);
        [symmetry; exact C|now destruct w].
    + rewrite Hok in Hw1. subst w1.
      match goal with
      | |- context [try_available _ _ _ _ ?w1] =>
          destruct (IH w1) as (I1 & I2 & I3 & I4)
      end.
      simpl in I1, I2, I3, I4.
      split; [exact I1|]. split; [exact I2|]. split; [exact I3|].
      intros Ht. destruct (I4 Ht) as (m & pre & Hm & _ & Hr).
      exists m, (connect_cmd ssid (Net.password n) :: pre).
      split; [congruence|]. split; [reflexivity|].
      rewrite Hr, <- app_assoc. reflexivity.
Qed.

Lemma try_saved_frame nmcli time_time available saved : forall w,
  let r := try_saved nmcli time_time saved available w in
  writable (snd r) = writable w /\
  write_opens (snd r) = write_opens w /\
  (fst r = false ->
   file (snd r) = file w /\ clock_reads (snd r) = clock_reads w) /\
  (fst r = true ->
   exists s n pre,
     In s saved /\ has_match available s = true /\
     find (fun m => String.eqb (Net.ssid m) (Net.ssid s)) (saved_of (file w))
     = Some n /\
     r = connect_to_network nmcli time_time (Net.ssid s) (Net.password n)
           {| file := file w; writable := writable w;
              write_opens := write_opens w;
              calls := calls w ++ pre; clock_reads := clock_reads w |}).
Proof.
  induction saved as [|s rest IH]; intros w; simpl.
  - repeat split; auto; discriminate.
  - unfold bind.
    pose proof (try_available_frame nmcli time_time (Net.ssid s) available w)
      as Hin. cbv zeta in Hin.
    destruct (try_available nmcli time_time (Net.ssid s) available w)
      as [ok w1] eqn:E. simpl fst in Hin. simpl snd in Hin.
    destruct Hin as (H1 & H2 & H3 & H4).
    destruct ok.
    + simpl. split; [exact H1|]. split; [exact H2|].
      split; [discriminate|]. intros _.
      destruct (H4 eq_refl) as (n & pre & Hn & Hm & Hr).
      exists s, n, pre. repeat split; auto.
    + destruct (H3 eq_refl) as [Hf Hc].
      destruct (IH w1) as (I1 & I2 & I3 & I4). cbv zeta in I1, I2, I3, I4.
      split; [congruence|]. split; [congruence|].
      split; [intros Hfl; destruct (I3 Hfl); split; congruence|].
      intros Ht. destruct (I4 Ht) as (s' & n & pre & Hs & Hm & Hn & Hr).
      pose proof (try_available_calls nmcli time_time (Net.ssid s) available w)
        as [mid Hmid]. rewrite E in Hmid. simpl in Hmid.
      exists s', n, (mid ++ pre). split; [now right|]. split; [exact Hm|].
      split; [now rewrite <- Hf|].
      rewrite Hr, Hf, H1, H2, Hc, Hmid, <- app_assoc. reflexivity.
Qed.

(** A successful [auto_connect] that found no connection is one
    successful [connect_to_network], made after the listing, the scan and
    the attempts that failed, for a stored network with a live match, from
    the file, the disk flags and the clock [auto_connect] started with. *)
Lemma auto_connect_last nmcli time_time w :
  PyStr.truthy_opt (current_of (nmcli (calls w) active_cmd)) = false ->
  fst (auto_connect nmcli time_time w) = true ->
  exists n pre,
    In n (networks (fst (load_config w))) /\
    has_match (live nmcli w) n = true /\
    auto_connect nmcli time_time w
    = connect_to_network nmcli time_time (Net.ssid n) (Net.password n)
        {| file := file w; writable := writable w;
           write_opens := write_opens w;
           calls := loop_history w ++ pre; clock_reads := clock_reads w |}.
Proof.
  rewrite auto_connect_unfold. intros Hcur. rewrite Hcur. intros Ht.
  match goal with
  | |- context [try_saved _ _ ?sv ?av ?w1] =>
      destruct (try_saved_frame nmcli time_time av sv w1) as (_ & _ & _ & H4)
  end.
  destruct (H4 Ht) as (s & n & pre & Hs & Hm & Hn & Hr).
  simpl in Hn, Hr. destruct (find_saved_In _ _ _ Hn) as [Hin He].
  exists n, pre. split; [exact Hin|]. split.
  - now rewrite (has_match_ssid (live nmcli w) n s He).
  - rewrite He. exact Hr.
Qed.

Lemma sorted_tail_after {A} (key : A -> Z) l1 x l2 :
  StronglySorted (desc key) (l1 ++ x :: l2) -> Forall (desc key x) l2.
Proof.
  induction l1 as [|a l1 IH]; simpl; intros H; inversion H; subst; auto.
Qed.

(** C6, as the code has it.  [get_saved_networks] returns the stored
    records in descending order of [last_used], a record without the key
    counting as stamped 0: after a record without a time stamp there are
    only records without one or with a stamp that is not positive. *)
Theorem saved_networks_by_recency w :
  Permutation (networks (fst (load_config w))) (fst (get_saved_networks w)) /\
  StronglySorted (desc recency_key) (fst (get_saved_networks w)) /\
  (forall l1 x l2 y t,
     fst (get_saved_networks w) = l1 ++ x :: l2 ->
     Net.last_used x = None -> In y l2 -> Net.last_used y = Some t -> t <= 0).
Proof.
  rewrite get_saved_networks_eq. simpl. unfold saved_of.
  split; [apply sorted_desc_perm|]. split; [apply sorted_desc_sorted|].
  intros l1 x l2 y t Heq Hx Hy Ht.
  pose proof (sorted_desc_sorted recency_key
                (networks match file w with Stored c => c | _ => default_config end))
    as Hs.
  rewrite Heq in Hs. apply sorted_tail_after in Hs.
  rewrite Forall_forall in Hs. specialize (Hs y Hy).
  unfold desc, recency_key in Hs. rewrite Hx, Ht in Hs. exact Hs.
Qed.

(** C6 as stated fails: a record stamped before 1970 is returned after a
    record without a time stamp. *)
Lemma untimed_not_last :
  ~ untimed_last (fst (get_saved_networks (world_of (Stored old_stamp)))).
Proof.
  intros H.
  specialize (H [] (Net.mk "Guest" None None) [Net.mk "Old" None (Some (-1))]
                (Net.mk "Old" None (Some (-1))) eq_refl eq_refl (or_introl eq_refl)).
  discriminate H.
Qed.

(** C2, as the code has it.  [connect_to_network] reports success exactly
    when the command completes with exit code 0.  It leaves the file as it
    was when the attempt fails; when the attempt succeeds it saves the
    network itself: the records of other ssids are kept in their order,
    one record with the ssid, the credential and the current time follows
    them, and [last_connected] is the ssid.  If that write fails the file
    is as it was, or unreadable when the failure comes after the file has
    been opened for writing.  [auto_connect] saves nothing of its own:
    the file is as it was, or [auto_connect] has returned [True] with
    exactly the outcome of one [connect_to_network] for a stored network,
    made from the file, the disk flags and the clock it started with. *)
Theorem connect_saves_on_success nmcli time_time ssid password w :
  fst (connect_to_network nmcli time_time ssid password w)
  = succeeds (nmcli (calls w) (connect_cmd ssid password)) /\
  file (snd (connect_to_network nmcli time_time ssid password w))
  = (if fst (connect_to_network nmcli time_time ssid password w)
     then
       if writable w
       then Stored
              {| networks :=
                   filter (fun n => negb (String.eqb (Net.ssid n) ssid))
                     (networks (fst (load_config w)))
                   ++ [ {| Net.ssid := ssid; Net.password := password;
                           Net.last_used := Some (time_time (clock_reads w)) |} ];
                 last_connected := Some ssid |}
       else if write_opens w then Corrupt else file w
     else file w) /\
  (file (snd (auto_connect nmcli time_time w)) = file w \/
   exists n pre,
     In n (networks (fst (load_config w))) /\
     fst (auto_connect nmcli time_time w) = true /\
     auto_connect nmcli time_time w
     = connect_to_network nmcli time_time (Net.ssid n) (Net.password n)
         {| file := file w; writable := writable w;
            write_opens := write_opens w;
            calls := calls w ++ [active_cmd; scan_cmd] ++ pre;
            clock_reads := clock_reads w |}).
Proof.
  split; [|split].
  - rewrite connect_to_network_eq. reflexivity.
  - rewrite connect_to_network_eq. reflexivity.
  - destruct (PyStr.truthy_opt (current_of (nmcli (calls w) active_cmd)))
      eqn:Hcur.
    { left. rewrite auto_connect_unfold, Hcur. reflexivity. }
    destruct (fst (auto_connect nmcli time_time w)) eqn:Hok.
    + right. destruct (auto_connect_last nmcli time_time w Hcur Hok)
        as (n & pre & Hin & _ & Heq).
      exists n, pre. split; [exact Hin|]. split; [reflexivity|].
      unfold loop_history in Heq. rewrite <- app_assoc in Heq. exact Heq.
    + left. rewrite auto_connect_unfold, Hcur in Hok |- *.
      match goal with
      | |- context [try_saved _ _ ?sv ?av ?w1] =>
          destruct (try_saved_frame nmcli time_time av sv w1) as (_ & _ & H3 & _)
      end.
      exact (proj1 (H3 Hok)).
Qed.

(** C2 as stated fails: a successful connect on an empty store leaves the
    network in the file. *)
Lemma connect_changes_store : ~ connect_keeps_store.
Proof.
  intros H.
  specialize (H (always 0 "") epoch "Home" (Some "secret") (world_of Absent)).
  discriminate H.
Qed.

Example connect_home :
  file (snd (connect_to_network (always 0 "") epoch "Home" (Some "secret")
               (world_of Absent)))
  = Stored {| networks := [Net.mk "Home" (Some "secret") (Some 1700000000)];
              last_connected := Some "Home" |}.
Proof. reflexivity. Qed.

(** A successful connect whose write fails: the file is as it was when
    it could not be opened, and cannot be parsed (the store reads as
    empty) when the write was cut off after the file had been opened. *)
Example connect_write_fails :
  file (snd (connect_to_network (always 0 "") epoch "Home" (Some "secret")
               (unwritable (Stored two_saved) false)))
  = Stored two_saved /\
  file (snd (connect_to_network (always 0 "") epoch "Home" (Some "secret")
               (unwritable (Stored two_saved) true)))
  = Corrupt /\
  fst (load_config
         (snd (connect_to_network (always 0 "") epoch "Home" (Some "secret")
                 (unwritable (Stored two_saved) true))))
  = default_config.
Proof. repeat split; reflexivity. Qed.

(** C9.  [connect_to_network] runs one command: [nmcli dev wifi connect]
    with the ssid, followed by [password] and the credential exactly when
    the credential is a non-empty string; when it is [None] or the empty
    string the command ends with the ssid.  [connect_to_saved] passes the
    stored credential through the same choice. *)
Theorem connect_password_iff_nonempty nmcli time_time ssid cred w :
  calls (snd (connect_to_network nmcli time_time ssid cred w))
  = calls w ++ [connect_cmd ssid cred] /\
  ((exists p, cred = Some p /\ p <> "" /\
              connect_cmd ssid cred
              = ["nmcli"; "dev"; "wifi"; "connect"; ssid; "password"; p])
   \/ ((cred = None \/ cred = Some "") /\
       connect_cmd ssid cred = ["nmcli"; "dev"; "wifi"; "connect"; ssid])) /\
  (In "password" (skipn 5 (connect_cmd ssid cred))
   <-> exists p, cred = Some p /\ p <> "") /\
  calls (snd (connect_to_saved nmcli time_time ssid w))
  = calls w ++ match find (fun n => String.eqb (Net.ssid n) ssid)
                       (fst (get_saved_networks w)) with
               | Some n => [connect_cmd ssid (Net.password n)]
               | None => []
               end.
Proof.
  split; [now rewrite connect_to_network_eq|]. split; [|split].
  - destruct cred as [[|c p]|].
    + right. split; [now right|reflexivity].
    + left. exists (String c p). repeat split. discriminate.
    + right. split; [now left|reflexivity].
  - destruct cred as [[|c p]|]; simpl; split.
    + intros [].
    + intros (p & [= <-] & Hp). now apply Hp.
    + intros _. exists (String c p). split; [reflexivity|discriminate].
    + intros _. now left.
    + intros [].
    + intros (p & Hp & _). discriminate Hp.
  - rewrite connect_to_saved_eq, get_saved_networks_eq. simpl.
    destruct (find _ (saved_of (file w))).
    + now rewrite connect_to_network_eq.
    + now rewrite app_nil_r.
Qed.

Example connect_forms :
  connect_cmd "Cafe" None = ["nmcli"; "dev"; "wifi"; "connect"; "Cafe"] /\
  connect_cmd "Cafe" (Some "") = ["nmcli"; "dev"; "wifi"; "connect"; "Cafe"] /\
  connect_cmd "Home" (Some "secret")
  = ["nmcli"; "dev"; "wifi"; "connect"; "Home"; "password"; "secret"].
Proof. repeat split; reflexivity. Qed.

(** ** The loops of auto-connect *)

Lemma attempted_app nmcli c1 : forall h c2,
  attempted nmcli h (c1 ++ c2)
  = (if succeeded nmcli h c1 then attempted nmcli h c1
     else c1 ++ attempted nmcli (h ++ c1) c2) /\
  succeeded nmcli h (c1 ++ c2)
  = (succeeded nmcli h c1 || succeeded nmcli (h ++ c1) c2).
Proof.
  induction c1 as [|c cs IH]; simpl; intros h c2.
  - now rewrite app_nil_r.
  - destruct (IH (h ++ [c]) c2) as [IHa IHs].
    rewrite <- app_assoc in IHa, IHs. simpl in IHa, IHs.
    destruct (succeeds (nmcli h c)); simpl; [split; reflexivity|].
    rewrite IHa, IHs.
    split; [|reflexivity]. now destruct (succeeded nmcli (h ++ [c]) cs).
Qed.

Lemma attempted_all_failed nmcli cmds : forall h,
  succeeded nmcli h cmds = false -> attempted nmcli h cmds = cmds.
Proof.
  induction cmds as [|c cs IH]; simpl; intros h H; [reflexivity|].
  apply orb_false_iff in H. destruct H as [Hc Hcs].
  rewrite Hc. f_equal. now apply IH.
Qed.

(** The inner loop: the commands it runs, its result, and what it leaves
    of the world when no attempt succeeds. *)
Lemma try_available_spec nmcli time_time ssid available : forall w,
  let cmds := flat_map (fun a => if String.eqb ssid (Scan.ssid a)
                                 then saved_cmd (saved_of (file w)) ssid
                                 else []) available in
  let r := try_available nmcli time_time ssid available w in
  fst r = succeeded nmcli (calls w) cmds /\
  calls (snd r) = calls w ++ attempted nmcli (calls w) cmds /\
  (fst r = false -> file (snd r) = file w).
Proof.
  induction available as [|a rest IH]; intros w; simpl.
  - rewrite app_nil_r. auto.
  - destruct (String.eqb ssid (Scan.ssid a)); simpl; [|apply IH].
    unfold bind. rewrite connect_to_saved_eq. unfold saved_cmd.
    destruct (find _ (saved_of (file w))) as [n|] eqn:F; simpl.
    2:{ specialize (IH w). simpl in IH. unfold saved_cmd in IH.
        rewrite F in IH. exact IH. }
    rewrite connect_to_network_eq. cbv zeta. simpl.
    destruct (succeeds (nmcli (calls w) (connect_cmd ssid (Net.password n))))
      eqn:Ok; simpl.
    + repeat split. discriminate.
    + match goal with
      | |- context [try_available _ _ _ _ ?w1] => specialize (IH w1)
      end.
      simpl in IH. unfold saved_cmd in IH. rewrite F in IH.
      destruct IH as (IH1 & IH2 & IH3).
      rewrite IH1, IH2, <- app_assoc. simpl. repeat split.
      intros Hf. apply IH3. now rewrite IH1.
Qed.

(** The outer loop, for the saved networks [all] of the file. *)
Lemma try_saved_spec nmcli time_time available saved : forall w,
  let cmds := plan (saved_of (file w)) saved available in
  let r := try_saved nmcli time_time saved available w in
  fst r = succeeded nmcli (calls w) cmds /\
  calls (snd r) = calls w ++ attempted nmcli (calls w) cmds /\
  (fst r = false -> file (snd r) = file w).
Proof.
  induction saved as [|s rest IH]; intros w; simpl.
  - rewrite app_nil_r. auto.
  - unfold bind.
    pose proof (try_available_spec nmcli time_time (Net.ssid s) available w)
      as Hin. simpl in Hin.
    destruct (try_available nmcli time_time (Net.ssid s) available w)
      as [ok w1] eqn:E. simpl in Hin. destruct Hin as (H1 & H2 & H3).
    unfold plan. simpl. fold (plan (saved_of (file w)) rest available).
    match goal with
    | |- context [attempted nmcli (calls w) (?c1 ++ ?c2)] =>
        destruct (attempted_app nmcli c1 (calls w) c2) as [Ha Hs];
        rewrite Ha, Hs; rewrite <- H1
    end.
    destruct ok; simpl.
    + repeat split; [exact H2|discriminate].
    + specialize (H3 eq_refl).
      specialize (IH w1). simpl in IH. rewrite H3 in IH.
      destruct IH as (I1 & I2 & I3).
      symmetry in H1. apply attempted_all_failed in H1.
      rewrite H1 in H2. rewrite H2 in I1, I2.
      rewrite I1, I2, <- app_assoc. repeat split.
      intros Hf. apply I3. now rewrite I1.
Qed.


(** What [auto_connect] does when no connection is reported: the listing,
    the scan, then the planned connect commands up to the first success. *)
Lemma auto_connect_spec nmcli time_time w :
  PyStr.truthy_opt (fst (get_current_connection nmcli w)) = false ->
  let cmds := plan (saved_of (file w)) (saved_of (file w)) (live nmcli w) in
  fst (auto_connect nmcli time_time w) = succeeded nmcli (loop_history w) cmds /\
  calls (snd (auto_connect nmcli time_time w))
  = loop_history w ++ attempted nmcli (loop_history w) cmds.
Proof.
  intros Hcur. unfold auto_connect, bind.
  rewrite get_current_connection_eq in *. simpl in Hcur. rewrite Hcur.
  unfold scan_networks, bind, subprocess_run, ret. simpl.
  match goal with
  | |- context [try_saved _ _ ?sv ?av ?w1] =>
      pose proof (try_saved_spec nmcli time_time av sv w1) as H
  end.
  simpl in H. destruct H as (H1 & H2 & _).
  unfold loop_history, live.
  replace (calls w ++ [active_cmd; scan_cmd])
    with ((calls w ++ [active_cmd]) ++ [scan_cmd])
    by now rewrite <- app_assoc.
  split; [exact H1|exact H2].
Qed.

(** ** Which candidate comes first *)

Lemma find_split {A} (f : A -> bool) l s :
  find f l = Some s ->
  exists l1 l2, l = l1 ++ s :: l2 /\ f s = true /\
                forall x, In x l1 -> f x = false.
Proof.
  induction l as [|a l IH]; simpl; [discriminate|].
  destruct (f a) eqn:E.
  - intros [= <-]. exists [], l. repeat split; auto. intros x [].
  - intros H. destruct (IH H) as (l1 & l2 & -> & Hs & Hl1).
    exists (a :: l1), l2. repeat split; auto.
    intros x [<-|Hx]; auto.
Qed.

Lemma inner_no_match (c : list argv) ssid available :
  existsb (fun a => String.eqb ssid (Scan.ssid a)) available = false ->
  flat_map (fun a => if String.eqb ssid (Scan.ssid a) then c else [])
    available = [].
Proof.
  induction available as [|a rest IH]; simpl; [reflexivity|].
  intros H. apply orb_false_iff in H. destruct H as [Ha Hr].
  rewrite Ha. now apply IH.
Qed.

Lemma inner_match (c : list argv) ssid available :
  existsb (fun a => String.eqb ssid (Scan.ssid a)) available = true ->
  exists more,
    flat_map (fun a => if String.eqb ssid (Scan.ssid a) then c else [])
      available = c ++ more.
Proof.
  induction available as [|a rest IH]; simpl; [discriminate|].
  destruct (String.eqb ssid (Scan.ssid a)); simpl.
  - intros _. eauto.
  - exact IH.
Qed.


(** The plan starts with the first saved network that has a live match,
    and with the credential of that very record. *)
Lemma plan_head available all s :
  find (has_match available) all = Some s ->
  exists more,
    plan all all available = connect_cmd (Net.ssid s) (Net.password s) :: more.
Proof.
  intros Hf. destruct (find_split _ _ _ Hf) as (l1 & l2 & Heq & Hs & Hl1).
  assert (Hcmd : saved_cmd all (Net.ssid s)
                 = [connect_cmd (Net.ssid s) (Net.password s)]).
  { unfold saved_cmd. rewrite Heq.
    assert (Hfind : find (fun n => String.eqb (Net.ssid n) (Net.ssid s))
                      (l1 ++ s :: l2) = Some s).
    { clear Heq Hf. induction l1 as [|x l1 IH]; simpl.
      - now rewrite String.eqb_refl.
      - destruct (String.eqb (Net.ssid x) (Net.ssid s)) eqn:E.
        + apply String.eqb_eq in E.
          rewrite <- (has_match_ssid available x s E) in Hs.
          rewrite (Hl1 x (or_introl eq_refl)) in Hs. discriminate.
        + apply IH. intros y Hy. apply Hl1. now right. }
    now rewrite Hfind. }
  unfold plan.
  set (inner := fun s0 : Net.t =>
         flat_map (fun a => if String.eqb (Net.ssid s0) (Scan.ssid a)
                            then saved_cmd all (Net.ssid s0) else [])
           available).
  assert (Hnil : flat_map inner l1 = []).
  { clear Heq Hf Hcmd. induction l1 as [|x l1 IH]; simpl; [reflexivity|].
    unfold inner at 1. rewrite inner_no_match by (apply Hl1; now left).
    apply IH. intros y Hy. apply Hl1. now right. }
  rewrite Heq, flat_map_app, Hnil. simpl.
  destruct (inner_match (saved_cmd all (Net.ssid s)) (Net.ssid s)
              available Hs) as [more Hm].
  unfold inner at 1. rewrite Hm, Hcmd. simpl. eauto.
Qed.

Lemma attempted_head nmcli h c cs :
  exists more, attempted nmcli h (c :: cs) = c :: more.
Proof. simpl. destruct (succeeds (nmcli h c)); eauto. Qed.

(** ** Claims about auto-connect *)

(** C3.  When no connection is reported, the first connect command of
    [auto_connect] is for the first saved network, in the order of
    [get_saved_networks] (most recently used first), that has a live match
    in the scan result, whatever the signals are; it carries the
    credential stored with that network. *)
Theorem auto_connect_recency_first nmcli time_time w s :
  PyStr.truthy_opt (fst (get_current_connection nmcli w)) = false ->
  find (has_match (fst (scan_networks nmcli (snd (get_current_connection nmcli w)))))
       (fst (get_saved_networks w)) = Some s ->
  exists more,
    calls (snd (auto_connect nmcli time_time w))
    = calls w ++ [active_cmd; scan_cmd]
      ++ connect_cmd (Net.ssid s) (Net.password s) :: more.
Proof.
  intros Hcur Hf.
  destruct (auto_connect_spec nmcli time_time w Hcur) as [_ Hc].
  rewrite Hc. unfold loop_history.
  rewrite get_saved_networks_eq in Hf. simpl in Hf.
  change (scan_result (nmcli (calls w ++ [active_cmd]) scan_cmd))
    with (live nmcli w) in Hf.
  destruct (plan_head _ _ _ Hf) as [rest Hp]. rewrite Hp.
  destruct (attempted_head nmcli (calls w ++ [active_cmd; scan_cmd])
              (connect_cmd (Net.ssid s) (Net.password s)) rest) as [more Hm].
  rewrite Hm. exists more. now rewrite <- app_assoc.
Qed.

Lemma auto_connect_recency_first_witness :
  exists more,
    calls (snd (auto_connect (scripted "" two_live (fun _ => true)) epoch
                  (world_of (Stored two_saved))))
    = calls (world_of (Stored two_saved)) ++ [active_cmd; scan_cmd]
      ++ connect_cmd (Net.ssid saved_A) (Net.password saved_A) :: more.
Proof.
  apply (auto_connect_recency_first (scripted "" two_live (fun _ => true))
           epoch (world_of (Stored two_saved)) saved_A); reflexivity.
Defined.

Example auto_connect_A_before_B :
  fst (scan_networks (scripted "" two_live (fun _ => true))
         (world_of (Stored two_saved)))
  = [Scan.mk "B" "WPA2" "90"; Scan.mk "A" "WPA2" "40"] /\
  fst (get_saved_networks (world_of (Stored two_saved))) = [saved_A; saved_B] /\
  calls (snd (auto_connect (scripted "" two_live (fun _ => true)) epoch
                (world_of (Stored two_saved))))
  = [active_cmd; scan_cmd; connect_secured "A" "pw-a"].
Proof. repeat split; reflexivity. Qed.

(** C1, as the code has it.  When no connection is reported,
    [auto_connect] runs the connect commands of the candidates (the saved
    networks with a live match, most recently used first) one after the
    other until one succeeds: a failed attempt is followed by the next
    candidate, and failure is reported only when every candidate has been
    attempted. *)
Theorem auto_connect_tries_next_candidate nmcli time_time w :
  PyStr.truthy_opt (fst (get_current_connection nmcli w)) = false ->
  let cmds := plan (saved_of (file w)) (saved_of (file w)) (live nmcli w) in
  calls (snd (auto_connect nmcli time_time w))
  = loop_history w ++ attempted nmcli (loop_history w) cmds /\
  fst (auto_connect nmcli time_time w) = succeeded nmcli (loop_history w) cmds /\
  (fst (auto_connect nmcli time_time w) = false ->
   calls (snd (auto_connect nmcli time_time w)) = loop_history w ++ cmds).
Proof.
  intros Hcur cmds.
  destruct (auto_connect_spec nmcli time_time w Hcur) as [Hr Hc].
  fold cmds in Hr, Hc. repeat split; auto.
  intros Hf. rewrite Hc. f_equal.
  apply attempted_all_failed. now rewrite <- Hr.
Qed.

Lemma auto_connect_tries_next_candidate_witness :
  calls (snd (auto_connect (scripted "" two_live (fun _ => false)) epoch
                (world_of (Stored two_saved))))
  = [active_cmd; scan_cmd; connect_secured "A" "pw-a"; connect_secured "B" "pw-b"].
Proof.
  destruct (auto_connect_tries_next_candidate
              (scripted "" two_live (fun _ => false)) epoch
              (world_of (Stored two_saved)) eq_refl) as (_ & _ & H).
  exact (H eq_refl).
Defined.

(** C1 as stated fails: ["A"] is attempted first and fails, and ["B"] is
    attempted next and succeeds. *)
Lemma auto_connect_second_attempt : ~ single_attempt.
Proof.
  intros H.
  specialize (H (scripted "" two_live (String.eqb "B")) epoch
                (world_of (Stored two_saved))
                (connect_secured "A" "pw-a") [connect_secured "B" "pw-b"]
                eq_refl eq_refl).
  destruct H as [H _]. discriminate H.
Qed.

Example auto_connect_A_fails_B_succeeds :
  fst (auto_connect (scripted "" two_live (String.eqb "B")) epoch
         (world_of (Stored two_saved))) = true /\
  calls (snd (auto_connect (scripted "" two_live (String.eqb "B")) epoch
                (world_of (Stored two_saved))))
  = [active_cmd; scan_cmd; connect_secured "A" "pw-a"; connect_secured "B" "pw-b"].
Proof. split; reflexivity. Qed.

(** C4, as the code has it.  When [get_current_connection] returns a
    non-empty ssid, [auto_connect] returns [True] after that one listing:
    no scan, no connect, and the file and the clock are left alone. *)
Theorem auto_connect_noop_when_active nmcli time_time w s :
  fst (get_current_connection nmcli w) = Some s -> s <> "" ->
  fst (auto_connect nmcli time_time w) = true /\
  calls (snd (auto_connect nmcli time_time w)) = calls w ++ [active_cmd] /\
  file (snd (auto_connect nmcli time_time w)) = file w /\
  clock_reads (snd (auto_connect nmcli time_time w)) = clock_reads w.
Proof.
  intros Hcur Hs. unfold auto_connect, bind.
  destruct (get_current_connection nmcli w) as [cur w1] eqn:E.
  rewrite get_current_connection_eq in E. injection E as <- <-.
  simpl in Hcur. rewrite Hcur. simpl.
  destruct s; [contradiction|]. simpl. auto.
Qed.

Lemma auto_connect_noop_when_active_witness :
  fst (auto_connect (scripted active_home two_live (fun _ => true)) epoch
         (world_of (Stored two_saved))) = true /\
  calls (snd (auto_connect (scripted active_home two_live (fun _ => true)) epoch
                (world_of (Stored two_saved)))) = [] ++ [active_cmd] /\
  file (snd (auto_connect (scripted active_home two_live (fun _ => true)) epoch
               (world_of (Stored two_saved)))) = Stored two_saved /\
  clock_reads (snd (auto_connect (scripted active_home two_live (fun _ => true))
                      epoch (world_of (Stored two_saved)))) = 0%nat.
Proof.
  apply (auto_connect_noop_when_active
           (scripted active_home two_live (fun _ => true)) epoch
           (world_of (Stored two_saved)) "Home"); [reflexivity|discriminate].
Defined.

(** C4 as stated fails: for the listing line [yes:] the value returned by
    [get_current_connection] is the empty string, which is not [None] but
    is false in [if current:], so the scan runs and, nothing being saved,
    the result is [False]. *)
Lemma auto_connect_unnamed_active : ~ active_means_noop.
Proof.
  intros H.
  destruct (H (scripted active_unnamed sample_scan (fun _ => true)) epoch
              (world_of Absent)) as [H1 _].
  - discriminate.
  - discriminate H1.
Qed.

Example auto_connect_unnamed :
  fst (get_current_connection (scripted active_unnamed sample_scan (fun _ => true))
         (world_of Absent)) = Some "" /\
  auto_connect (scripted active_unnamed sample_scan (fun _ => true)) epoch
    (world_of Absent)
  = (false, {| file := Absent; writable := true; write_opens := false;
               calls := [active_cmd; scan_cmd]; clock_reads := 0 |}).
Proof. split; reflexivity. Qed.

(** * Further properties of the code *)

(** ** The store: [save_network], [get_saved_networks], [connect_to_saved] *)

Lemma save_network_eq time_time ssid password w :
  save_network time_time ssid password w
  = (tt, {| file := written (upsert ssid password (time_time (clock_reads w))
                              (fst (load_config w))) w;
            writable := writable w;
            write_opens := write_opens w;
            calls := calls w;
            clock_reads := S (clock_reads w) |}).
Proof. reflexivity. Qed.

Lemma filter_other_idem ssid (l : list Net.t) :
  filter (fun n => negb (String.eqb (Net.ssid n) ssid))
    (filter (fun n => negb (String.eqb (Net.ssid n) ssid)) l)
  = filter (fun n => negb (String.eqb (Net.ssid n) ssid)) l.
Proof.
  induction l as [|a l IH]; simpl; [reflexivity|].
  destruct (negb (String.eqb (Net.ssid a) ssid)) eqn:E; simpl; [|exact IH].
  now rewrite E, IH.
Qed.

Lemma filter_same_other ssid (l : list Net.t) :
  filter (fun n => String.eqb (Net.ssid n) ssid)
    (filter (fun n => negb (String.eqb (Net.ssid n) ssid)) l) = [].
Proof.
  induction l as [|a l IH]; simpl; [reflexivity|].
  destruct (String.eqb (Net.ssid a) ssid) eqn:E; simpl; [exact IH|].
  now rewrite E.
Qed.

Lemma NoDup_snoc {A} (l : list A) x : NoDup l -> ~ In x l -> NoDup (l ++ [x]).
Proof.
  induction 1 as [|a l Ha Hl IH]; simpl; intros Hx.
  - repeat constructor. intros [].
  - constructor.
    + rewrite in_app_iff. simpl. intros [H|[H|[]]]; [now apply Ha|].
      subst. apply Hx. now left.
    + apply IH. intros H. apply Hx. now right.
Qed.

Lemma NoDup_map_filter {A B} (f : A -> B) (p : A -> bool) l :
  NoDup (map f l) -> NoDup (map f (filter p l)).
Proof.
  induction l as [|a l IH]; simpl; intros H; [constructor|].
  inversion H as [|? ? Ha Hl]; subst.
  destruct (p a); simpl; [|now apply IH].
  constructor; [|now apply IH].
  intros Hin. apply Ha. apply in_map_iff in Hin.
  destruct Hin as (b & Hb & Hin). apply filter_In in Hin.
  apply in_map_iff. exists b. tauto.
Qed.

Lemma NoDup_map_inj {A B} (f : A -> B) l a b :
  NoDup (map f l) -> In a l -> In b l -> f a = f b -> a = b.
Proof.
  induction l as [|x l IH]; simpl; [tauto|].
  intros H Ha Hb Hab. inversion H as [|? ? Hx Hl]; subst.
  destruct Ha as [->|Ha], Hb as [->|Hb]; auto.
  - exfalso. apply Hx. rewrite Hab. now apply in_map.
  - exfalso. apply Hx. rewrite <- Hab. now apply in_map.
Qed.

(** After [save_network] on a writable file the store holds exactly one
    record of the ssid, the new one, every other record is kept in its
    place, and [last_connected] is the ssid. *)
Theorem save_network_one_record time_time ssid password w :
  writable w = true ->
  let c := fst (load_config w) in
  let c' := fst (load_config (snd (save_network time_time ssid password w))) in
  filter (fun n => String.eqb (Net.ssid n) ssid) (networks c')
  = [ Net.mk ssid password (Some (time_time (clock_reads w))) ] /\
  filter (fun n => negb (String.eqb (Net.ssid n) ssid)) (networks c')
  = filter (fun n => negb (String.eqb (Net.ssid n) ssid)) (networks c) /\
  last_connected c' = Some ssid.
Proof.
  intros Hw. rewrite save_network_eq. unfold written. simpl. rewrite Hw. simpl.
  rewrite !filter_app, filter_same_other, filter_other_idem. simpl.
  rewrite String.eqb_refl. simpl. rewrite app_nil_r. auto.
Qed.

Lemma save_network_one_record_witness :
  filter (fun n => String.eqb (Net.ssid n) "A")
    (networks (fst (load_config
       (snd (save_network epoch "A" (Some "new") (world_of (Stored two_saved)))))))
  = [ Net.mk "A" (Some "new") (Some (epoch 0)) ] /\
  filter (fun n => negb (String.eqb (Net.ssid n) "A"))
    (networks (fst (load_config
       (snd (save_network epoch "A" (Some "new") (world_of (Stored two_saved)))))))
  = filter (fun n => negb (String.eqb (Net.ssid n) "A")) (networks two_saved) /\
  last_connected (fst (load_config
       (snd (save_network epoch "A" (Some "new") (world_of (Stored two_saved))))))
  = Some "A".
Proof.
  apply (save_network_one_record epoch "A" (Some "new")
           (world_of (Stored two_saved))). reflexivity.
Defined.

(** [save_network] keeps the ssids of the store distinct, whether or not
    the file can be written. *)
Theorem save_network_keeps_unique time_time ssid password w :
  NoDup (map Net.ssid (networks (fst (load_config w)))) ->
  NoDup (map Net.ssid
           (networks (fst (load_config
              (snd (save_network time_time ssid password w)))))).
Proof.
  intros Hnd. rewrite save_network_eq. unfold written. simpl.
  destruct (writable w); simpl;
    [|destruct (write_opens w); [constructor|exact Hnd]].
  rewrite map_app. simpl. apply NoDup_snoc.
  - now apply NoDup_map_filter.
  - intros Hin. apply in_map_iff in Hin. destruct Hin as (n & Hn & Hin).
    apply filter_In in Hin. destruct Hin as [_ Hin].
    rewrite Hn, String.eqb_refl in Hin. discriminate.
Qed.

Lemma save_network_keeps_unique_witness :
  NoDup (map Net.ssid
           (networks (fst (load_config
              (snd (save_network epoch "A" None (world_of (Stored two_saved)))))))).
Proof.
  apply (save_network_keeps_unique epoch "A" None (world_of (Stored two_saved))).
  simpl. repeat constructor; simpl; intuition discriminate.
Defined.

(** Saving the same ssid twice leaves what one save with the second
    credential and the second time leaves: the last write wins. *)
Theorem save_network_twice time_time ssid p1 p2 w :
  writable w = true ->
  file (snd (save_network time_time ssid p2
               (snd (save_network time_time ssid p1 w))))
  = Stored (upsert ssid p2 (time_time (S (clock_reads w))) (fst (load_config w))).
Proof.
  intros Hw. rewrite !save_network_eq. unfold written. simpl. rewrite Hw. simpl.
  unfold upsert. simpl. f_equal. f_equal.
  rewrite filter_app, filter_other_idem. simpl.
  rewrite String.eqb_refl. simpl. now rewrite app_nil_r.
Qed.

Lemma save_network_twice_witness :
  file (snd (save_network epoch "Home" (Some "second")
               (snd (save_network epoch "Home" (Some "first") (world_of Absent)))))
  = Stored (upsert "Home" (Some "second") (epoch 1)
              (fst (load_config (world_of Absent)))).
Proof.
  apply (save_network_twice epoch "Home" (Some "first") (Some "second")
           (world_of Absent)). reflexivity.
Defined.

Lemma sorted_desc_snoc_max {A} (key : A -> Z) x l :
  (forall y, In y l -> key y < key x) ->
  sorted_desc key (l ++ [x]) = x :: sorted_desc key l.
Proof.
  induction l as [|a l IH]; simpl; intros H; [reflexivity|].
  rewrite IH by (intros y Hy; apply H; now right). simpl.
  assert (Ha : key a < key x) by (apply H; now left).
  destruct (Z.leb_spec (key x) (key a)); [lia|reflexivity].
Qed.

(** A network just connected to is listed first by [get_saved_networks],
    before the other saved networks in their former order, when the clock
    is later than the time stamps of the other records. *)
Theorem connected_network_listed_first nmcli time_time ssid password w :
  writable w = true ->
  fst (connect_to_network nmcli time_time ssid password w) = true ->
  (forall n, In n (networks (fst (load_config w))) -> Net.ssid n <> ssid ->
             recency_key n < time_time (clock_reads w)) ->
  fst (get_saved_networks (snd (connect_to_network nmcli time_time ssid password w)))
  = Net.mk ssid password (Some (time_time (clock_reads w)))
    :: sorted_desc recency_key
         (filter (fun n => negb (String.eqb (Net.ssid n) ssid))
            (networks (fst (load_config w)))).
Proof.
  intros Hw Hok Hlate. rewrite connect_to_network_eq in *. cbv zeta in *.
  simpl in Hok. rewrite get_saved_networks_eq. unfold written. simpl.
  rewrite Hok, Hw. simpl.
  unfold saved_of. simpl. apply sorted_desc_snoc_max.
  intros y Hy. apply filter_In in Hy. destruct Hy as [Hy Hne].
  apply Hlate; [exact Hy|].
  intros Heq. rewrite Heq, String.eqb_refl in Hne. discriminate.
Qed.

Lemma connected_network_listed_first_witness :
  fst (get_saved_networks
         (snd (connect_to_network (always 0 "") (fun _ => 1800000000) "B"
                 (Some "pw-b") (world_of (Stored two_saved)))))
  = Net.mk "B" (Some "pw-b") (Some 1800000000)
    :: sorted_desc recency_key
         (filter (fun n => negb (String.eqb (Net.ssid n) "B"))
            (networks (fst (load_config (world_of (Stored two_saved)))))).
Proof.
  apply (connected_network_listed_first (always 0 "") (fun _ => 1800000000)
           "B" (Some "pw-b") (world_of (Stored two_saved)));
    [reflexivity|reflexivity|].
  simpl. intros n [<-|[<-|[]]] Hne.
  - exfalso. apply Hne. reflexivity.
  - reflexivity.
Defined.


Lemma find_saved_found ssid d n :
  In n (networks match d with Stored c => c | _ => default_config end) ->
  Net.ssid n = ssid ->
  exists m, find (fun m => String.eqb (Net.ssid m) ssid) (saved_of d) = Some m.
Proof.
  intros Hin He.
  destruct (find (fun m => String.eqb (Net.ssid m) ssid) (saved_of d))
    as [m|] eqn:F; [eauto|].
  assert (Hs : In n (saved_of d)) by (unfold saved_of; now apply sorted_desc_In).
  pose proof (find_none _ _ F n Hs) as Hn. simpl in Hn.
  rewrite He, String.eqb_refl in Hn. discriminate.
Qed.

(** [connect_to_saved] for an ssid that is not in the store runs no
    command, changes nothing and returns [False]. *)
Theorem connect_to_saved_unknown nmcli time_time ssid w :
  ~ In ssid (map Net.ssid (networks (fst (load_config w)))) ->
  connect_to_saved nmcli time_time ssid w = (false, w).
Proof.
  intros Hno. rewrite connect_to_saved_eq.
  destruct (find _ (saved_of (file w))) as [n|] eqn:F; [|reflexivity].
  apply find_saved_In in F. destruct F as [Hin He].
  exfalso. apply Hno. rewrite <- He. now apply in_map.
Qed.

Lemma connect_to_saved_unknown_witness :
  connect_to_saved (always 0 "") epoch "Cafe" (world_of (Stored two_saved))
  = (false, world_of (Stored two_saved)).
Proof.
  apply (connect_to_saved_unknown (always 0 "") epoch "Cafe"
           (world_of (Stored two_saved))).
  simpl. intros [H|[H|[]]]; discriminate H.
Defined.

(** When the ssids of the store are distinct, [connect_to_saved] for the
    ssid of a stored record runs the connect command with that record's
    credential, and reports what the command reports. *)
Theorem connect_to_saved_stored_credential nmcli time_time n w :
  NoDup (map Net.ssid (networks (fst (load_config w)))) ->
  In n (networks (fst (load_config w))) ->
  calls (snd (connect_to_saved nmcli time_time (Net.ssid n) w))
  = calls w ++ [connect_cmd (Net.ssid n) (Net.password n)] /\
  fst (connect_to_saved nmcli time_time (Net.ssid n) w)
  = succeeds (nmcli (calls w) (connect_cmd (Net.ssid n) (Net.password n))).
Proof.
  intros Hnd Hin. rewrite connect_to_saved_eq.
  destruct (find_saved_found (Net.ssid n) (file w) n Hin eq_refl) as [m F].
  rewrite F. destruct (find_saved_In _ _ _ F) as [Hm He].
  assert (m = n) by (eapply NoDup_map_inj; eauto). subst m.
  rewrite connect_to_network_eq. split; reflexivity.
Qed.

Lemma connect_to_saved_stored_credential_witness :
  calls (snd (connect_to_saved (always 0 "") epoch (Net.ssid saved_B)
                (world_of (Stored two_saved))))
  = calls (world_of (Stored two_saved))
    ++ [connect_cmd (Net.ssid saved_B) (Net.password saved_B)] /\
  fst (connect_to_saved (always 0 "") epoch (Net.ssid saved_B)
         (world_of (Stored two_saved)))
  = succeeds (always 0 "" (calls (world_of (Stored two_saved)))
                (connect_cmd (Net.ssid saved_B) (Net.password saved_B))).
Proof.
  apply (connect_to_saved_stored_credential (always 0 "") epoch saved_B
           (world_of (Stored two_saved))).
  - simpl. repeat constructor; simpl; intuition discriminate.
  - simpl. now left.
Defined.

(** A credential saved with [save_network] is the one [connect_to_saved]
    passes on for that ssid afterwards, whatever the store held before. *)
Theorem save_then_connect_to_saved nmcli time_time ssid password w :
  writable w = true ->
  calls (snd (connect_to_saved nmcli time_time ssid
                (snd (save_network time_time ssid password w))))
  = calls w ++ [connect_cmd ssid password].
Proof.
  intros Hw. rewrite connect_to_saved_eq, save_network_eq.
  cbn [snd file calls writable clock_reads]. unfold written. rewrite Hw.
  set (new := Net.mk ssid password (Some (time_time (clock_reads w)))).
  destruct (find_saved_found ssid
              (Stored (upsert ssid password (time_time (clock_reads w))
                         (fst (load_config w)))) new) as [m F].
  { simpl. apply in_or_app. right. now left. }
  { reflexivity. }
  rewrite F. destruct (find_saved_In _ _ _ F) as [Hm He].
  simpl in Hm. apply in_app_or in Hm. destruct Hm as [Hm|[<-|[]]].
  - apply filter_In in Hm. destruct Hm as [_ Hm].
    rewrite He, String.eqb_refl in Hm. discriminate.
  - now rewrite connect_to_network_eq.
Qed.

Lemma save_then_connect_to_saved_witness :
  calls (snd (connect_to_saved (always 0 "") epoch "A"
                (snd (save_network epoch "A" (Some "changed")
                        (world_of (Stored two_saved))))))
  = calls (world_of (Stored two_saved)) ++ [connect_cmd "A" (Some "changed")].
Proof.
  apply (save_then_connect_to_saved (always 0 "") epoch "A" (Some "changed")
           (world_of (Stored two_saved))). reflexivity.
Defined.

Lemma insert_desc_filter {A} (key : A -> Z) k x l :
  filter (fun y => key y =? k) (insert_desc key x l)
  = filter (fun y => key y =? k) (x :: l).
Proof.
  induction l as [|y l IH]; [reflexivity|].
  simpl insert_desc. destruct (Z.leb_spec (key y) (key x)) as [Hle|Hgt];
    [reflexivity|].
  simpl in *. rewrite IH.
  destruct (Z.eqb_spec (key x) k) as [Hx|Hx], (Z.eqb_spec (key y) k) as [Hy|Hy];
    try reflexivity.
  lia.
Qed.

Lemma sorted_desc_filter {A} (key : A -> Z) k l :
  filter (fun y => key y =? k) (sorted_desc key l)
  = filter (fun y => key y =? k) l.
Proof.
  induction l as [|x l IH]; [reflexivity|].
  simpl sorted_desc. rewrite insert_desc_filter. simpl. now rewrite IH.
Qed.

(** The order of [get_saved_networks] is stable: the records of one time
    stamp, and those without any together with those stamped 0, come in
    the order in which they are stored. *)
Theorem saved_networks_stable w k :
  filter (fun n => recency_key n =? k) (fst (get_saved_networks w))
  = filter (fun n => recency_key n =? k) (networks (fst (load_config w))).
Proof. rewrite get_saved_networks_eq. apply sorted_desc_filter. Qed.

Lemma ensure_config_exists_file w :
  file (snd (ensure_config_exists w))
  = match file w with
    | Absent => if writable w then Stored default_config
                else if write_opens w then Corrupt else Absent
    | d => d
    end /\
  calls (snd (ensure_config_exists w)) = calls w.
Proof.
  unfold ensure_config_exists, save_config, written.
  destruct (file w) eqn:F; simpl; rewrite ?F; auto.
Qed.

(** [ensure_config_exists] never changes what [load_config] returns and
    runs no command.  It leaves an existing file alone, also one that
    cannot be parsed, and writes the empty configuration only where there
    is no file; when that write fails there is still no file, or one that
    cannot be parsed when the failure comes after the file has been
    opened for writing. *)
Theorem ensure_config_exists_effect w :
  fst (load_config (snd (ensure_config_exists w))) = fst (load_config w) /\
  file (snd (ensure_config_exists w))
  = match file w with
    | Absent => if writable w then Stored default_config
                else if write_opens w then Corrupt else Absent
    | d => d
    end /\
  calls (snd (ensure_config_exists w)) = calls w.
Proof.
  unfold ensure_config_exists, save_config, written, load_config.
  destruct (file w) eqn:F; simpl; rewrite ?F; auto.
  destruct (writable w), (write_opens w); simpl; rewrite ?F; auto.
Qed.

(** ** The scan: lines and fields *)

Lemma split_cons sep s : exists x xs, PyStr.split sep s = x :: xs.
Proof.
  destruct s as [|c r]; simpl; [eauto|].
  destruct (Ascii.eqb c sep); [eauto|].
  destruct (PyStr.split sep r); eauto.
Qed.

Lemma split_absent c sep s :
  PyStr.contains c s = false ->
  Forall (fun x => PyStr.contains c x = false) (PyStr.split sep s).
Proof.
  induction s as [|a r IH]; simpl; intros H.
  - repeat constructor.
  - apply orb_false_iff in H. destruct H as [Ha Hr]. specialize (IH Hr).
    destruct (Ascii.eqb a sep).
    + constructor; [reflexivity|exact IH].
    + destruct (PyStr.split sep r) as [|x xs]; simpl.
      * repeat constructor. simpl. now rewrite Ha.
      * inversion IH; subst. constructor; [simpl; now rewrite Ha|assumption].
Qed.

Lemma split_no_sep sep s :
  Forall (fun x => PyStr.contains sep x = false) (PyStr.split sep s).
Proof.
  induction s as [|a r IH]; simpl.
  - repeat constructor.
  - destruct (Ascii.eqb a sep) eqn:E.
    + constructor; [reflexivity|exact IH].
    + destruct (PyStr.split sep r) as [|x xs]; simpl.
      * repeat constructor. simpl. now rewrite E.
      * inversion IH; subst. constructor; [simpl; now rewrite E|assumption].
Qed.

Lemma split_field sep a rest :
  PyStr.contains sep a = false ->
  PyStr.split sep (a ++ String sep rest)%string = a :: PyStr.split sep rest.
Proof.
  induction a as [|c a IH]; simpl; intros H.
  - now rewrite Ascii.eqb_refl.
  - apply orb_false_iff in H. destruct H as [Hc Ha].
    rewrite Hc, (IH Ha). reflexivity.
Qed.

Lemma split_last sep a :
  PyStr.contains sep a = false -> PyStr.split sep a = [a].
Proof.
  induction a as [|c a IH]; simpl; intros H; [reflexivity|].
  apply orb_false_iff in H. destruct H as [Hc Ha].
  now rewrite Hc, (IH Ha).
Qed.

Lemma contains_field sep a rest :
  PyStr.contains sep (a ++ String sep rest)%string = true.
Proof.
  induction a as [|c a IH]; simpl.
  - now rewrite Ascii.eqb_refl.
  - rewrite IH. apply orb_true_r.
Qed.

Lemma lines_no_newline out :
  Forall (fun l => PyStr.contains "010" l = false) (lines_of out).
Proof. apply split_no_sep. Qed.

Lemma parse_line_fields line e :
  PyStr.contains "010" line = false ->
  In e (parse_line line) ->
  Scan.ssid e <> "" /\ Scan.security e <> "" /\ Scan.signal e <> "" /\
  free_of ":" e = true /\ free_of "010" e = true.
Proof.
  intros Hnl. unfold parse_line.
  destruct (PyStr.truthy line && PyStr.contains ":" line); [|intros []].
  pose proof (split_no_sep ":" line) as Hc.
  pose proof (split_absent "010" ":" line Hnl) as Hn.
  destruct (PyStr.split ":" line) as [|p0 [|p1 [|p2 ps]]]; try (intros []).
  inversion Hc as [|? ? C0 Hc1]; subst. inversion Hc1 as [|? ? C1 Hc2]; subst.
  inversion Hc2 as [|? ? C2 _]; subst.
  inversion Hn as [|? ? N0 Hn1]; subst. inversion Hn1 as [|? ? N1 Hn2]; subst.
  inversion Hn2 as [|? ? N2 _]; subst.
  destruct p0 as [|c0 p0]; simpl; [intros []|].
  intros [<-|[]]. unfold free_of. cbn [Scan.ssid Scan.security Scan.signal].
  assert (S1 : forall ch p d, PyStr.contains ch p = false ->
                 PyStr.contains ch d = false ->
                 PyStr.contains ch (if PyStr.truthy p then p else d) = false)
    by (intros ch p d; destruct p; simpl; auto).
  assert (T1 : forall p d : string, d <> "" ->
                 (if PyStr.truthy p then p else d) <> "")
    by (intros p d; destruct p; simpl; auto; discriminate).
  rewrite C0, N0.
  rewrite (S1 ":"%char p1 "Open" C1 eq_refl), (S1 ":"%char p2 "0" C2 eq_refl).
  rewrite (S1 "010"%char p1 "Open" N1 eq_refl),
    (S1 "010"%char p2 "0" N2 eq_refl).
  repeat split; try discriminate; apply T1; discriminate.
Qed.

(** Every entry that [scan_networks] returns has a non-empty ssid, a
    non-empty security (["Open"] for an empty descriptor) and a non-empty
    signal (["0"] for an empty one), and no field holds a colon or a line
    break. *)
Theorem scan_entry_fields nmcli w e :
  In e (fst (scan_networks nmcli w)) ->
  Scan.ssid e <> "" /\ Scan.security e <> "" /\ Scan.signal e <> "" /\
  free_of ":" e = true /\ free_of "010" e = true.
Proof.
  rewrite scan_networks_fst.
  destruct (nmcli (calls w) scan_cmd) as [rc out err|]; simpl; [|intros []].
  destruct (scan_output out) as [res|] eqn:Hres; [|intros []].
  intros He. destruct (scan_output_spec _ _ Hres) as (_ & Hin & _).
  apply Hin in He. apply pick_first_max in He. destruct He as [_ He].
  apply first_max_In in He. unfold records in He.
  apply in_flat_map in He. destruct He as (line & Hline & He).
  pose proof (lines_no_newline out) as Hnl. rewrite Forall_forall in Hnl.
  exact (parse_line_fields line e (Hnl line Hline) He).
Qed.

Lemma scan_entry_fields_witness :
  Scan.ssid (Scan.mk "Cafe" "Open" "80") <> "" /\
  Scan.security (Scan.mk "Cafe" "Open" "80") <> "" /\
  Scan.signal (Scan.mk "Cafe" "Open" "80") <> "" /\
  free_of ":" (Scan.mk "Cafe" "Open" "80") = true /\
  free_of "010" (Scan.mk "Cafe" "Open" "80") = true.
Proof.
  apply (scan_entry_fields (always 0 sample_scan) (world_of Absent)
           (Scan.mk "Cafe" "Open" "80")).
  left. reflexivity.
Defined.

(** A line of three or more colon-separated fields whose first field is
    not empty gives one entry, made of its first three fields, empty
    security and signal fields being replaced by ["Open"] and ["0"]; the
    fields after the third are ignored. *)
Theorem parse_line_joined a b c extra :
  PyStr.contains ":" a = false -> PyStr.contains ":" b = false ->
  PyStr.contains ":" c = false -> a <> "" ->
  parse_line (join ":" (a :: b :: c :: extra)) = [entry_of a b c].
Proof.
  intros Ha Hb Hc Hne. unfold parse_line.
  assert (Hsplit : exists ps,
            PyStr.split ":" (join ":" (a :: b :: c :: extra)) = a :: b :: c :: ps).
  { change (join ":" (a :: b :: c :: extra))
      with (a ++ String ":" (b ++ String ":" (join ":" (c :: extra))))%string.
    rewrite (split_field ":" a _ Ha), (split_field ":" b _ Hb).
    destruct extra as [|x xs].
    - simpl join. rewrite (split_last ":" c Hc). eauto.
    - change (join ":" (c :: x :: xs))
        with (c ++ String ":" (join ":" (x :: xs)))%string.
      rewrite (split_field ":" c _ Hc). eauto. }
  destruct Hsplit as [ps Hps]. rewrite Hps.
  change (join ":" (a :: b :: c :: extra))
    with (a ++ String ":" (b ++ String ":" (join ":" (c :: extra))))%string.
  rewrite contains_field.
  destruct a as [|ch a]; [contradiction|]. reflexivity.
Qed.

Lemma parse_line_joined_witness :
  parse_line (join ":" ["Home"; ""; ""; "extra"; "fields"])
  = [entry_of "Home" "" ""].
Proof.
  apply (parse_line_joined "Home" "" "" ["extra"; "fields"]);
    [reflexivity|reflexivity|reflexivity|discriminate].
Defined.

(** ** The current connection *)

Lemma after_first_None sep s :
  PyStr.after_first sep s = None <-> PyStr.contains sep s = false.
Proof.
  induction s as [|c r IH]; simpl; [tauto|].
  destruct (Ascii.eqb c sep); simpl; [split; discriminate|exact IH].
Qed.

Lemma prefix_cons a p b s :
  String.prefix (String a p) (String b s) = Ascii.eqb a b && String.prefix p s.
Proof.
  cbn [String.prefix]. destruct (ascii_dec a b) as [->|Hn].
  - now rewrite Ascii.eqb_refl.
  - apply Ascii.eqb_neq in Hn. now rewrite Hn.
Qed.

Lemma startswith_yes line :
  PyStr.startswith "yes:" line = true -> exists s, line = ("yes:" ++ s)%string.
Proof.
  unfold PyStr.startswith.
  destruct line as [|a [|b [|c [|d r]]]];
    rewrite ?prefix_cons; cbn [String.prefix];
    rewrite ?andb_false_r; try discriminate.
  rewrite !andb_true_iff, !Ascii.eqb_eq.
  intros (<- & <- & <- & <- & _). now exists r.
Qed.

Lemma startswith_yes_append s :
  PyStr.startswith "yes:" ("yes:" ++ s)%string = true.
Proof.
  unfold PyStr.startswith. simpl append. rewrite !prefix_cons.
  now destruct s.
Qed.

Lemma first_active_found l1 s l2 :
  forallb (fun l => negb (PyStr.startswith "yes:" l)) l1 = true ->
  first_active (l1 ++ ("yes:" ++ s)%string :: l2) = Some s.
Proof.
  induction l1 as [|l l1 IH]; intros H.
  - cbn [app first_active]. rewrite startswith_yes_append. reflexivity.
  - cbn [app first_active forallb] in *.
    apply andb_true_iff in H. destruct H as [Hl Hr].
    apply negb_true_iff in Hl. rewrite Hl. now apply IH.
Qed.

Lemma first_active_None lines :
  first_active lines = None
  <-> forallb (fun l => negb (PyStr.startswith "yes:" l)) lines = true.
Proof.
  induction lines as [|l lines IH]; simpl; [tauto|].
  destruct (PyStr.startswith "yes:" l) eqn:E; simpl; [|exact IH].
  split; [|discriminate].
  destruct (startswith_yes l E) as [s ->]. discriminate.
Qed.

(** [get_current_connection] returns what follows [yes:] on the first
    line of the listing that starts with [yes:], whole, colons included. *)
Theorem current_connection_first_active nmcli w rc out err l1 s l2 :
  nmcli (calls w) active_cmd = Completed rc out err ->
  lines_of out = l1 ++ ("yes:" ++ s)%string :: l2 ->
  forallb (fun l => negb (PyStr.startswith "yes:" l)) l1 = true ->
  fst (get_current_connection nmcli w) = Some s.
Proof.
  intros Hrun Hl Hno. rewrite get_current_connection_eq. simpl.
  rewrite Hrun. simpl. rewrite Hl. now apply first_active_found.
Qed.

Lemma current_connection_first_active_witness :
  fst (get_current_connection
         (always 0 ("no:Cafe" ++ nl ++ "yes:My:Net" ++ nl ++ "yes:Other")%string)
         (world_of Absent))
  = Some "My:Net".
Proof.
  apply (current_connection_first_active
           (always 0 ("no:Cafe" ++ nl ++ "yes:My:Net" ++ nl ++ "yes:Other")%string)
           (world_of Absent) 0
           ("no:Cafe" ++ nl ++ "yes:My:Net" ++ nl ++ "yes:Other")%string ""
           ["no:Cafe"] "My:Net" ["yes:Other"]); reflexivity.
Defined.

(** [get_current_connection] returns [None] exactly when the command
    raises or no line of its output starts with [yes:]; the exit code is
    not read, and the [IndexError] of the split cannot occur. *)
Theorem current_connection_none_iff nmcli w :
  fst (get_current_connection nmcli w) = None
  <-> match nmcli (calls w) active_cmd with
      | Raised => True
      | Completed _ out _ =>
          forallb (fun l => negb (PyStr.startswith "yes:" l)) (lines_of out)
          = true
      end.
Proof.
  rewrite get_current_connection_eq. simpl.
  destruct (nmcli (calls w) active_cmd) as [rc out err|]; simpl; [|tauto].
  apply first_active_None.
Qed.

(** ** Auto-connect: what it leaves behind *)




(** When [auto_connect] returns [False] the file is as it was and the
    clock has not been read: a run that fails saves nothing. *)
Theorem auto_connect_failure_keeps_store nmcli time_time w :
  fst (auto_connect nmcli time_time w) = false ->
  file (snd (auto_connect nmcli time_time w)) = file w /\
  clock_reads (snd (auto_connect nmcli time_time w)) = clock_reads w.
Proof.
  rewrite auto_connect_unfold.
  destruct (PyStr.truthy_opt (current_of (nmcli (calls w) active_cmd)));
    [discriminate|].
  intros Hf.
  match goal with
  | |- context [try_saved _ _ ?sv ?av ?w1] =>
      destruct (try_saved_frame nmcli time_time av sv w1) as (_ & _ & H2 & _)
  end.
  exact (H2 Hf).
Qed.

Lemma auto_connect_failure_keeps_store_witness :
  file (snd (auto_connect (scripted "" two_live (fun _ => false)) epoch
               (world_of (Stored two_saved))))
  = file (world_of (Stored two_saved)) /\
  clock_reads (snd (auto_connect (scripted "" two_live (fun _ => false)) epoch
                      (world_of (Stored two_saved))))
  = clock_reads (world_of (Stored two_saved)).
Proof.
  apply (auto_connect_failure_keeps_store
           (scripted "" two_live (fun _ => false)) epoch
           (world_of (Stored two_saved))). reflexivity.
Defined.

(** When no connection is reported and [auto_connect] returns [True], the
    last command it has run, after the listing, the scan and the earlier
    commands of its loops, is the connect command for a stored network
    that has a live match, with its stored credential, and that command
    has completed with exit code 0.  The network has been saved anew: the
    records of other ssids are kept in their order, its record follows
    them with the stored credential and the current time, and
    [last_connected] names it.  If that write fails the file is as it
    was, or unreadable when the failure comes after the file has been
    opened for writing. *)
Theorem auto_connect_success_saves nmcli time_time w :
  PyStr.truthy_opt (fst (get_current_connection nmcli w)) = false ->
  fst (auto_connect nmcli time_time w) = true ->
  exists n pre,
    In n (networks (fst (load_config w))) /\
    has_match (live nmcli w) n = true /\
    succeeds (nmcli (calls w ++ [active_cmd; scan_cmd] ++ pre)
                (connect_cmd (Net.ssid n) (Net.password n))) = true /\
    calls (snd (auto_connect nmcli time_time w))
    = calls w ++ [active_cmd; scan_cmd] ++ pre
      ++ [connect_cmd (Net.ssid n) (Net.password n)] /\
    file (snd (auto_connect nmcli time_time w))
    = (if writable w
       then Stored
              {| networks :=
                   filter (fun m => negb (String.eqb (Net.ssid m) (Net.ssid n)))
                     (networks (fst (load_config w)))
                   ++ [ {| Net.ssid := Net.ssid n;
                           Net.password := Net.password n;
                           Net.last_used := Some (time_time (clock_reads w)) |} ];
                 last_connected := Some (Net.ssid n) |}
       else if write_opens w then Corrupt else file w).
Proof.
  rewrite get_current_connection_eq. simpl. intros Hcur Ht.
  destruct (auto_connect_last nmcli time_time w Hcur Ht)
    as (n & pre & Hin & Hm & Heq).
  rewrite Heq in Ht |- *. rewrite connect_to_network_eq in Ht |- *.
  cbv zeta in Ht |- *. unfold loop_history in Ht |- *. simpl in Ht.
  exists n, pre. split; [exact Hin|]. split; [exact Hm|].
  rewrite <- !app_assoc in Ht. simpl in Ht.
  split; [exact Ht|]. split.
  - simpl. rewrite <- !app_assoc. reflexivity.
  - simpl. rewrite <- !app_assoc. simpl. rewrite Ht. reflexivity.
Qed.

Lemma auto_connect_success_saves_witness :
  exists n pre,
    In n (networks (fst (load_config (world_of (Stored two_saved))))) /\
    has_match (live (scripted "" two_live (String.eqb "B"))
                 (world_of (Stored two_saved))) n = true /\
    succeeds (scripted "" two_live (String.eqb "B")
                (calls (world_of (Stored two_saved))
                 ++ [active_cmd; scan_cmd] ++ pre)
                (connect_cmd (Net.ssid n) (Net.password n))) = true /\
    calls (snd (auto_connect (scripted "" two_live (String.eqb "B")) epoch
                  (world_of (Stored two_saved))))
    = calls (world_of (Stored two_saved)) ++ [active_cmd; scan_cmd] ++ pre
      ++ [connect_cmd (Net.ssid n) (Net.password n)] /\
    file (snd (auto_connect (scripted "" two_live (String.eqb "B")) epoch
                 (world_of (Stored two_saved))))
    = (if writable (world_of (Stored two_saved))
       then Stored
              {| networks :=
                   filter (fun m => negb (String.eqb (Net.ssid m) (Net.ssid n)))
                     (networks (fst (load_config (world_of (Stored two_saved)))))
                   ++ [ {| Net.ssid := Net.ssid n;
                           Net.password := Net.password n;
                           Net.last_used :=
                             Some (epoch (clock_reads
                                            (world_of (Stored two_saved)))) |} ];
                 last_connected := Some (Net.ssid n) |}
       else if write_opens (world_of (Stored two_saved)) then Corrupt
            else file (world_of (Stored two_saved))).
Proof.
  apply (auto_connect_success_saves (scripted "" two_live (String.eqb "B"))
           epoch (world_of (Stored two_saved))); reflexivity.
Defined.

(** ** Auto-connect: which commands it runs *)

Lemma try_available_no_match nmcli time_time ssid available w :
  existsb (fun a => String.eqb ssid (Scan.ssid a)) available = false ->
  try_available nmcli time_time ssid available w = (false, w).
Proof.
  induction available as [|a rest IH]; simpl; intros H; [reflexivity|].
  apply orb_false_iff in H. destruct H as [Ha Hr]. rewrite Ha. now apply IH.
Qed.

Lemma try_saved_no_match nmcli time_time available saved w :
  forallb (fun s => negb (has_match available s)) saved = true ->
  try_saved nmcli time_time saved available w = (false, w).
Proof.
  induction saved as [|s rest IH]; simpl; intros H; [reflexivity|].
  apply andb_true_iff in H. destruct H as [Hs Hr].
  apply negb_true_iff in Hs. unfold bind.
  rewrite (try_available_no_match _ _ _ _ _ Hs). now apply IH.
Qed.

Lemma forallb_perm {A} (p : A -> bool) l l' :
  Permutation l l' -> forallb p l = true -> forallb p l' = true.
Proof.
  intros HP H. apply forallb_forall. intros x Hx.
  rewrite forallb_forall in H. apply H.
  eapply Permutation_in; [symmetry; exact HP|exact Hx].
Qed.

(** Without a connection and without a saved network that has a live
    match (an empty store, an empty scan, or no common ssid),
    [auto_connect] returns [False] after the listing and the scan: it runs
    no connect command and changes nothing else. *)
Theorem auto_connect_no_candidate nmcli time_time w :
  PyStr.truthy_opt (fst (get_current_connection nmcli w)) = false ->
  forallb (fun s => negb (has_match (live nmcli w) s))
    (networks (fst (load_config w))) = true ->
  auto_connect nmcli time_time w
  = (false, {| file := file w; writable := writable w;
               write_opens := write_opens w;
               calls := calls w ++ [active_cmd; scan_cmd];
               clock_reads := clock_reads w |}).
Proof.
  rewrite get_current_connection_eq, auto_connect_unfold. simpl.
  intros Hcur Hno. rewrite Hcur.
  apply try_saved_no_match.
  eapply forallb_perm; [|exact Hno]. apply sorted_desc_perm.
Qed.

Lemma auto_connect_no_candidate_witness :
  auto_connect (scripted "" "Cafe::80" (fun _ => true)) epoch (world_of Absent)
  = (false, {| file := file (world_of Absent);
               writable := writable (world_of Absent);
               write_opens := write_opens (world_of Absent);
               calls := calls (world_of Absent) ++ [active_cmd; scan_cmd];
               clock_reads := clock_reads (world_of Absent) |}).
Proof.
  apply (auto_connect_no_candidate (scripted "" "Cafe::80" (fun _ => true))
           epoch (world_of Absent)); reflexivity.
Defined.

Lemma attempted_prefix nmcli cmds : forall h,
  exists rest, cmds = attempted nmcli h cmds ++ rest.
Proof.
  induction cmds as [|c cs IH]; simpl; intros h; [now exists []|].
  destruct (succeeds (nmcli h c)).
  - now exists cs.
  - destruct (IH (h ++ [c])) as [rest Hr]. exists rest. simpl. now f_equal.
Qed.

Lemma plan_In all saved available c :
  In c (plan all saved available) ->
  exists s n, In s saved /\ has_match available s = true /\
              find (fun m => String.eqb (Net.ssid m) (Net.ssid s)) all = Some n /\
              c = connect_cmd (Net.ssid s) (Net.password n).
Proof.
  unfold plan. intros H. apply in_flat_map in H. destruct H as (s & Hs & H).
  apply in_flat_map in H. destruct H as (a & Ha & H).
  destruct (String.eqb (Net.ssid s) (Scan.ssid a)) eqn:E; [|destruct H].
  unfold saved_cmd in H.
  destruct (find _ all) as [n|] eqn:F; [|destruct H].
  destruct H as [<-|[]]. exists s, n. repeat split; auto.
  unfold has_match. apply existsb_exists. eauto.
Qed.

(** Every command that [auto_connect] runs is the listing, the scan, or
    the connect command of a saved network that has a live match, with
    the credential stored for it: it never tries a network that is not
    saved or not in range. *)
Theorem auto_connect_only_saved_and_live nmcli time_time w c :
  In c (calls (snd (auto_connect nmcli time_time w))) ->
  In c (calls w) \/ c = active_cmd \/ c = scan_cmd \/
  exists n, In n (networks (fst (load_config w))) /\
            has_match (live nmcli w) n = true /\
            c = connect_cmd (Net.ssid n) (Net.password n).
Proof.
  destruct (PyStr.truthy_opt (fst (get_current_connection nmcli w))) eqn:Hcur.
  - rewrite auto_connect_unfold. rewrite get_current_connection_eq in Hcur.
    simpl in Hcur. rewrite Hcur. simpl. rewrite in_app_iff. simpl.
    intros [H|[H|[]]]; auto.
  - destruct (auto_connect_spec nmcli time_time w Hcur) as [_ Hc].
    rewrite Hc. unfold loop_history. rewrite !in_app_iff. simpl.
    intros [[H|[H|[H|[]]]]|H]; auto.
    right. right. right.
    destruct (attempted_prefix nmcli
                (plan (saved_of (file w)) (saved_of (file w)) (live nmcli w))
                (calls w ++ [active_cmd; scan_cmd])) as [rest Hr].
    assert (Hp : In c (plan (saved_of (file w)) (saved_of (file w))
                         (live nmcli w)))
      by (rewrite Hr; apply in_or_app; now left).
    destruct (plan_In _ _ _ _ Hp) as (s & n & Hs & Hm & Hn & ->).
    destruct (find_saved_In _ _ _ Hn) as [Hin He].
    exists n. split; [exact Hin|]. split.
    + now rewrite (has_match_ssid (live nmcli w) n s He).
    + now rewrite He.
Qed.

Lemma auto_connect_only_saved_and_live_witness :
  In (connect_secured "A" "pw-a") (calls (world_of (Stored two_saved))) \/
  connect_secured "A" "pw-a" = active_cmd \/
  connect_secured "A" "pw-a" = scan_cmd \/
  exists n, In n (networks (fst (load_config (world_of (Stored two_saved))))) /\
            has_match (live (scripted "" two_live (fun _ => true))
                         (world_of (Stored two_saved))) n = true /\
            connect_secured "A" "pw-a" = connect_cmd (Net.ssid n) (Net.password n).
Proof.
  apply (auto_connect_only_saved_and_live
           (scripted "" two_live (fun _ => true)) epoch
           (world_of (Stored two_saved)) (connect_secured "A" "pw-a")).
  right. right. left. reflexivity.
Defined.

Lemma connect_cmd_ssid ssid password : nth 4 (connect_cmd ssid password) "" = ssid.
Proof.
  destruct password as [p|]; simpl; [|reflexivity].
  destruct (PyStr.truthy p); reflexivity.
Qed.

Lemma inner_at_most_one (c : list argv) ssid available :
  NoDup (map Scan.ssid available) ->
  flat_map (fun a => if String.eqb ssid (Scan.ssid a) then c else [])
    available = []
  \/ flat_map (fun a => if String.eqb ssid (Scan.ssid a) then c else [])
       available = c.
Proof.
  induction available as [|a rest IH]; simpl; intros H; [now left|].
  inversion H as [|? ? Ha Hr]; subst.
  destruct (String.eqb ssid (Scan.ssid a)) eqn:E; simpl; [|now apply IH].
  right. apply String.eqb_eq in E. subst ssid.
  rewrite inner_no_match; [apply app_nil_r|].
  destruct (existsb (fun a0 => String.eqb (Scan.ssid a) (Scan.ssid a0)) rest)
    eqn:X; [|reflexivity].
  apply existsb_exists in X. destruct X as (b & Hb & Eb).
  apply String.eqb_eq in Eb. exfalso. apply Ha. rewrite Eb. now apply in_map.
Qed.

Lemma plan_NoDup all saved available :
  NoDup (map Net.ssid saved) -> NoDup (map Scan.ssid available) ->
  NoDup (plan all saved available).
Proof.
  intros Hs Ha. unfold plan. induction saved as [|s rest IH]; simpl.
  - constructor.
  - inversion Hs as [|? ? Hx Hr]; subst.
    assert (Hone : forall c, In c
              (flat_map (fun a => if String.eqb (Net.ssid s) (Scan.ssid a)
                                  then saved_cmd all (Net.ssid s) else [])
                 available) ->
              nth 4 c "" = Net.ssid s).
    { intros c Hc. apply in_flat_map in Hc. destruct Hc as (a & _ & Hc).
      destruct (String.eqb (Net.ssid s) (Scan.ssid a)); [|destruct Hc].
      unfold saved_cmd in Hc. destruct (find _ all); [|destruct Hc].
      destruct Hc as [<-|[]]. apply connect_cmd_ssid. }
    apply NoDup_app.
    + destruct (inner_at_most_one (saved_cmd all (Net.ssid s)) (Net.ssid s)
                  available Ha) as [->| ->]; [constructor|].
      unfold saved_cmd. destruct (find _ all); repeat constructor. intros [].
    + now apply IH.
    + intros c Hc Hin. apply Hone in Hc.
      destruct (plan_In all rest available c Hin) as (s' & n & Hs' & _ & _ & ->).
      rewrite connect_cmd_ssid in Hc. apply Hx. rewrite <- Hc.
      now apply in_map.
Qed.

Lemma live_NoDup nmcli w : NoDup (map Scan.ssid (live nmcli w)).
Proof.
  unfold live.
  destruct (nmcli (calls w ++ [active_cmd]) scan_cmd) as [rc out err|]; simpl;
    [|constructor].
  destruct (scan_output out) as [res|] eqn:Hres; [|constructor].
  now destruct (scan_output_spec _ _ Hres) as (Hnd & _).
Qed.

Lemma skipn_length_app {A} (l x : list A) : skipn (List.length l) (l ++ x) = x.
Proof. induction l; simpl; auto. Qed.

(** When the ssids of the store are distinct, the commands [auto_connect]
    runs after the listing and the scan, its connect attempts, are
    pairwise distinct: no saved network is tried twice in one run. *)
Theorem auto_connect_no_retry nmcli time_time w :
  NoDup (map Net.ssid (networks (fst (load_config w)))) ->
  NoDup (skipn (List.length (calls w ++ [active_cmd; scan_cmd]))
           (calls (snd (auto_connect nmcli time_time w)))).
Proof.
  intros Hnd.
  destruct (PyStr.truthy_opt (fst (get_current_connection nmcli w))) eqn:Hcur.
  - rewrite auto_connect_unfold. rewrite get_current_connection_eq in Hcur.
    simpl in Hcur. rewrite Hcur. simpl.
    rewrite skipn_all2; [constructor|].
    rewrite !length_app. simpl. lia.
  - destruct (auto_connect_spec nmcli time_time w Hcur) as [_ Hc].
    rewrite Hc. unfold loop_history. rewrite skipn_length_app.
    destruct (attempted_prefix nmcli
                (plan (saved_of (file w)) (saved_of (file w)) (live nmcli w))
                (calls w ++ [active_cmd; scan_cmd])) as [rest Hr].
    apply (NoDup_app_remove_r _ rest). rewrite <- Hr.
    apply plan_NoDup; [|apply live_NoDup].
    eapply Permutation_NoDup; [|exact Hnd].
    apply Permutation_map. apply sorted_desc_perm.
Qed.

Lemma auto_connect_no_retry_witness :
  NoDup (skipn (List.length (calls (world_of (Stored two_saved))
                             ++ [active_cmd; scan_cmd]))
           (calls (snd (auto_connect (scripted "" two_live (fun _ => false))
                          epoch (world_of (Stored two_saved)))))).
Proof.
  apply (auto_connect_no_retry (scripted "" two_live (fun _ => false)) epoch
           (world_of (Stored two_saved))).
  simpl. repeat constructor; simpl; intuition discriminate.
Defined.

(** ** The menu *)

Lemma unread_nil stdin : unread [] stdin.
Proof. exists stdin. now rewrite app_nil_r. Qed.

Lemma unread_tail a stdin : unread stdin (a :: stdin).
Proof. now exists [a]. Qed.

Lemma unread_tail2 a b stdin : unread stdin (a :: b :: stdin).
Proof. now exists [a; b]. Qed.

Lemma unread_cons a rest stdin : unread rest stdin -> unread rest (a :: stdin).
Proof. intros [t ->]. now exists (a :: t). Qed.

Lemma unread_In rest stdin x : unread rest stdin -> In x rest -> In x stdin.
Proof. intros [t ->] H. apply in_or_app. now right. Qed.

Lemma select_scanned_unread nmcli time_time networks stdin w :
  unread (fst (select_scanned nmcli time_time networks stdin w)) stdin.
Proof.
  unfold select_scanned. destruct stdin as [|line stdin1]; [apply unread_nil|].
  destruct (PyStr.int line) as [k|]; [|apply unread_tail].
  cbv zeta.
  destruct ((0 <=? k - 1) && (k - 1 <? Z.of_nat (List.length networks)));
    [|apply unread_tail].
  destruct (nth_error networks (Z.to_nat (k - 1))) as [e|]; [|apply unread_tail].
  destruct (negb (String.eqb (Scan.security e) "Open")).
  - destruct stdin1 as [|pw stdin2]; [apply unread_nil|].
    unfold bind. destruct (connect_to_network _ _ _ _ w). apply unread_tail2.
  - unfold bind. destruct (connect_to_network _ _ _ _ w). apply unread_tail.
Qed.

Lemma select_saved_unread nmcli time_time saved stdin w :
  unread (fst (select_saved nmcli time_time saved stdin w)) stdin.
Proof.
  unfold select_saved. destruct stdin as [|line stdin1]; [apply unread_nil|].
  destruct (PyStr.int line) as [k|]; [|apply unread_tail].
  cbv zeta.
  destruct ((0 <=? k - 1) && (k - 1 <? Z.of_nat (List.length saved)));
    [|apply unread_tail].
  destruct (nth_error saved (Z.to_nat (k - 1))) as [e|]; [|apply unread_tail].
  unfold bind. destruct (connect_to_saved _ _ _ w). apply unread_tail.
Qed.

(** A round reads lines from the front of standard input, and it leaves
    the loop only when the line it read as the choice is [7]. *)
Lemma menu_round_spec nmcli time_time stdin w :
  unread (snd (fst (menu_round nmcli time_time stdin w))) stdin /\
  (fst (fst (menu_round nmcli time_time stdin w)) = Break ->
   exists line stdin1, stdin = line :: stdin1 /\ PyStr.strip line = "7").
Proof.
  unfold menu_round. destruct stdin as [|line stdin1].
  - simpl. split; [apply unread_nil|discriminate].
  - cbv zeta.
    destruct (String.eqb (PyStr.strip line) "1").
    { unfold bind. destruct (scan_networks nmcli w) as [[|e es] w1]; simpl.
      - split; [apply unread_tail|discriminate].
      - pose proof (select_scanned_unread nmcli time_time (e :: es) stdin1 w1) as H.
        destruct (select_scanned nmcli time_time (e :: es) stdin1 w1) as [r w2].
        simpl in *. split; [now apply unread_cons|discriminate]. }
    destruct (String.eqb (PyStr.strip line) "2").
    { unfold bind. destruct (get_saved_networks w) as [[|e es] w1]; simpl.
      - split; [apply unread_tail|discriminate].
      - pose proof (select_saved_unread nmcli time_time (e :: es) stdin1 w1) as H.
        destruct (select_saved nmcli time_time (e :: es) stdin1 w1) as [r w2].
        simpl in *. split; [now apply unread_cons|discriminate]. }
    destruct (String.eqb (PyStr.strip line) "3").
    { unfold bind. destruct (get_saved_networks w). simpl.
      split; [apply unread_tail|discriminate]. }
    destruct (String.eqb (PyStr.strip line) "4").
    { unfold bind. destruct (get_current_connection nmcli w). simpl.
      split; [apply unread_tail|discriminate]. }
    destruct (String.eqb (PyStr.strip line) "5").
    { unfold bind. destruct (auto_connect nmcli time_time w). simpl.
      split; [apply unread_tail|discriminate]. }
    destruct (String.eqb (PyStr.strip line) "6").
    { unfold bind. destruct (disconnect nmcli w). simpl.
      split; [apply unread_tail|discriminate]. }
    destruct (String.eqb (PyStr.strip line) "7") eqn:E7; simpl.
    + split; [apply unread_tail|]. intros _. apply String.eqb_eq in E7. eauto.
    + split; [apply unread_tail|discriminate].
Qed.

(** The menu loop is left only through choice 7: when it has ended, some
    line of standard input was, blanks at its ends apart, the text [7]. *)
Theorem menu_loop_exit_needs_7 nmcli time_time rounds : forall stdin w rest,
  fst (menu_loop nmcli time_time rounds stdin w) = Some rest ->
  exists line, In line stdin /\ PyStr.strip line = "7".
Proof.
  induction rounds as [|n IH]; intros stdin w rest; simpl; [discriminate|].
  unfold bind.
  destruct (menu_round_spec nmcli time_time stdin w) as [Hu Hb].
  destruct (menu_round nmcli time_time stdin w) as [[fl r] w1]. simpl in *.
  destruct fl.
  - intros H. destruct (IH _ _ _ H) as (line & Hin & Hs).
    exists line. split; [eapply unread_In; eauto|exact Hs].
  - intros _. destruct (Hb eq_refl) as (line & s1 & -> & Hs).
    exists line. split; [now left|exact Hs].
Qed.

Lemma menu_loop_exit_needs_7_witness :
  exists line, In line ["3"; " 7 "; "1"] /\ PyStr.strip line = "7".
Proof.
  apply (menu_loop_exit_needs_7 (always 0 "") epoch 5 ["3"; " 7 "; "1"]
           (world_of Absent) ["1"]). reflexivity.
Defined.

(** At the end of standard input the loop never ends: every round fails
    in [input()], the loop goes on, and nothing is run or written. *)
Theorem menu_loop_end_of_input nmcli time_time rounds w :
  menu_loop nmcli time_time rounds [] w = (None, w).
Proof. induction rounds as [|n IH]; simpl; [reflexivity|exact IH]. Qed.

(** Without root privileges [main] exits with status 1.  It runs no
    command and its outcome is the same whatever standard input holds:
    no line of it is read.  The manager is built before the check, so
    where there was no configuration file the empty configuration has
    been written; when that write fails there is still no file, or one
    that cannot be parsed when the failure comes after the file has been
    opened for writing.  An existing file is as it was. *)
Theorem main_unprivileged nmcli time_time euid rounds stdin w :
  euid <> 0 ->
  fst (main nmcli time_time euid rounds stdin w) = Exited 1 /\
  (forall rounds' stdin',
     main nmcli time_time euid rounds' stdin' w
     = main nmcli time_time euid rounds stdin w) /\
  calls (snd (main nmcli time_time euid rounds stdin w)) = calls w /\
  clock_reads (snd (main nmcli time_time euid rounds stdin w)) = clock_reads w /\
  file (snd (main nmcli time_time euid rounds stdin w))
  = match file w with
    | Absent => if writable w then Stored default_config
                else if write_opens w then Corrupt else Absent
    | d => d
    end.
Proof.
  intros Hne. apply Z.eqb_neq in Hne.
  assert (Hmain : forall r i,
            main nmcli time_time euid r i w
            = (Exited 1, snd (ensure_config_exists w))).
  { intros r i. unfold main, bind.
    destruct (ensure_config_exists w) as [u w1]. now rewrite Hne. }
  destruct (ensure_config_exists_file w) as (Hf & Hc).
  rewrite Hmain. simpl. split; [reflexivity|].
  split; [intros r i; now rewrite Hmain|].
  split; [exact Hc|]. split; [|exact Hf].
  unfold ensure_config_exists. destruct (file w); reflexivity.
Qed.

Lemma main_unprivileged_witness :
  fst (main (always 0 "") epoch 1000 3 ["5"; "7"] (world_of Absent)) = Exited 1 /\
  (forall rounds' stdin',
     main (always 0 "") epoch 1000 rounds' stdin' (world_of Absent)
     = main (always 0 "") epoch 1000 3 ["5"; "7"] (world_of Absent)) /\
  calls (snd (main (always 0 "") epoch 1000 3 ["5"; "7"] (world_of Absent)))
  = calls (world_of Absent) /\
  clock_reads (snd (main (always 0 "") epoch 1000 3 ["5"; "7"] (world_of Absent)))
  = clock_reads (world_of Absent) /\
  file (snd (main (always 0 "") epoch 1000 3 ["5"; "7"] (world_of Absent)))
  = match file (world_of Absent) with
    | Absent => if writable (world_of Absent) then Stored default_config
                else if write_opens (world_of Absent) then Corrupt else Absent
    | d => d
    end.
Proof.
  apply (main_unprivileged (always 0 "") epoch 1000 3 ["5"; "7"]
           (world_of Absent)). discriminate.
Defined.

Lemma selection_in_range {A} (l : list A) k e :
  1 <= k -> nth_error l (Z.to_nat (k - 1)) = Some e ->
  (0 <=? k - 1) && (k - 1 <? Z.of_nat (List.length l)) = true.
Proof.
  intros Hk Hn. apply andb_true_iff. split; [apply Z.leb_le; lia|].
  apply Z.ltb_lt.
  assert (Hlt : (Z.to_nat (k - 1) < List.length l)%nat)
    by (apply nth_error_Some; congruence).
  lia.
Qed.

(** Choice 1 with a selection that is not a number, or a number outside
    1..n for the n networks found, runs the scan and nothing else: no
    connect command, nothing saved.  When the scan finds nothing the
    selection is not even asked for, and the next line stays unread. *)
Theorem menu_scan_bad_selection nmcli time_time choice sel rest w :
  PyStr.strip choice = "1" ->
  match PyStr.int sel with
  | None => True
  | Some k => k < 1 \/ Z.of_nat (List.length (fst (scan_networks nmcli w))) < k
  end ->
  menu_round nmcli time_time (choice :: sel :: rest) w
  = ((Continue,
      match fst (scan_networks nmcli w) with [] => sel :: rest | _ => rest end),
     snd (scan_networks nmcli w)).
Proof.
  intros Hc Hsel. unfold menu_round. cbv zeta. rewrite Hc.
  change (String.eqb "1" "1") with true. cbv iota.
  unfold bind. destruct (scan_networks nmcli w) as [[|e es] w1] eqn:Es;
    [reflexivity|].
  simpl fst in *. simpl snd. unfold select_scanned.
  destruct (PyStr.int sel) as [k|]; [|reflexivity].
  cbv zeta.
  replace ((0 <=? k - 1) && (k - 1 <? Z.of_nat (List.length (e :: es))))
    with false; [reflexivity|].
  symmetry. apply andb_false_iff. destruct Hsel as [H|H].
  - left. apply Z.leb_gt. lia.
  - right. apply Z.ltb_ge. lia.
Qed.

Lemma menu_scan_bad_selection_witness :
  menu_round (always 0 sample_scan) epoch ["1"; "3"; "7"] (world_of Absent)
  = ((Continue,
      match fst (scan_networks (always 0 sample_scan) (world_of Absent)) with
      | [] => ["3"; "7"]
      | _ => ["7"]
      end),
     snd (scan_networks (always 0 sample_scan) (world_of Absent))).
Proof.
  apply (menu_scan_bad_selection (always 0 sample_scan) epoch "1" "3" ["7"]
           (world_of Absent)); [reflexivity|].
  right. reflexivity.
Defined.

(** Choice 1 with the number k of a network found by the scan (k may
    exceed ten): for a network of security ["Open"] the connect command is
    run without a password and without reading one; otherwise the next
    line is read as the password and passed to [connect_to_network]. *)
Theorem menu_scan_select nmcli time_time choice sel rest w k e :
  PyStr.strip choice = "1" ->
  PyStr.int sel = Some k -> 1 <= k ->
  nth_error (fst (scan_networks nmcli w)) (Z.to_nat (k - 1)) = Some e ->
  menu_round nmcli time_time (choice :: sel :: rest) w
  = if String.eqb (Scan.security e) "Open"
    then ((Continue, rest),
          snd (connect_to_network nmcli time_time (Scan.ssid e) None
                 (snd (scan_networks nmcli w))))
    else match rest with
         | [] => ((Continue, []), snd (scan_networks nmcli w))
         | password :: rest' =>
             ((Continue, rest'),
              snd (connect_to_network nmcli time_time (Scan.ssid e)
                     (Some password) (snd (scan_networks nmcli w))))
         end.
Proof.
  intros Hc Hsel Hk Hn. unfold menu_round. cbv zeta. rewrite Hc.
  change (String.eqb "1" "1") with true. cbv iota. unfold bind.
  destruct (scan_networks nmcli w) as [networks w1] eqn:Es.
  simpl fst in *. simpl snd.
  destruct networks as [|e0 es]; [destruct (Z.to_nat (k - 1)); discriminate|].
  unfold select_scanned. rewrite Hsel. cbv zeta.
  rewrite (selection_in_range (e0 :: es) k e Hk Hn), Hn.
  destruct (String.eqb (Scan.security e) "Open"); simpl.
  - unfold bind. now destruct (connect_to_network _ _ _ _ w1).
  - destruct rest as [|pw rest']; [reflexivity|].
    unfold bind. now destruct (connect_to_network _ _ _ _ w1).
Qed.

Lemma menu_scan_select_witness :
  menu_round (always 0 sample_scan) epoch ["1"; "2"; "secret"; "7"]
    (world_of Absent)
  = if String.eqb (Scan.security (Scan.mk "Home" "WPA2" "70")) "Open"
    then ((Continue, ["secret"; "7"]),
          snd (connect_to_network (always 0 sample_scan) epoch
                 (Scan.ssid (Scan.mk "Home" "WPA2" "70")) None
                 (snd (scan_networks (always 0 sample_scan) (world_of Absent)))))
    else match ["secret"; "7"] with
         | [] => ((Continue, []),
                  snd (scan_networks (always 0 sample_scan) (world_of Absent)))
         | password :: rest' =>
             ((Continue, rest'),
              snd (connect_to_network (always 0 sample_scan) epoch
                     (Scan.ssid (Scan.mk "Home" "WPA2" "70")) (Some password)
                     (snd (scan_networks (always 0 sample_scan)
                             (world_of Absent)))))
         end.
Proof.
  apply (menu_scan_select (always 0 sample_scan) epoch "1" "2"
           ["secret"; "7"] (world_of Absent) 2 (Scan.mk "Home" "WPA2" "70"));
    [reflexivity|reflexivity|lia|reflexivity].
Defined.

Example menu_scan_select_home :
  snd (menu_round (always 0 sample_scan) epoch ["1"; "2"; "secret"; "7"]
         (world_of Absent))
  = {| file := Stored {| networks := [Net.mk "Home" (Some "secret")
                                        (Some 1700000000)];
                         last_connected := Some "Home" |};
       writable := true;
       write_opens := false;
       calls := [scan_cmd; connect_secured "Home" "secret"];
       clock_reads := 1 |}.
Proof. reflexivity. Qed.

(** Choice 2 with the number k of a saved network, counted in the order
    of [get_saved_networks], runs [connect_to_saved] for the ssid of that
    network and reads no further line. *)
Theorem menu_saved_select nmcli time_time choice sel rest w k n :
  PyStr.strip choice = "2" ->
  PyStr.int sel = Some k -> 1 <= k ->
  nth_error (fst (get_saved_networks w)) (Z.to_nat (k - 1)) = Some n ->
  menu_round nmcli time_time (choice :: sel :: rest) w
  = ((Continue, rest), snd (connect_to_saved nmcli time_time (Net.ssid n) w)).
Proof.
  intros Hc Hsel Hk Hn. unfold menu_round. cbv zeta. rewrite Hc.
  change (String.eqb "2" "1") with false.
  change (String.eqb "2" "2") with true. cbv iota.
  unfold bind. rewrite get_saved_networks_eq in *. simpl fst in Hn.
  destruct (saved_of (file w)) as [|n0 ns] eqn:Es;
    [destruct (Z.to_nat (k - 1)); discriminate|].
  unfold select_saved. rewrite Hsel. cbv zeta.
  rewrite (selection_in_range (n0 :: ns) k n Hk Hn), Hn.
  unfold bind. now destruct (connect_to_saved _ _ _ w).
Qed.

Lemma menu_saved_select_witness :
  menu_round (always 0 "") epoch [" 2"; "1"; "7"] (world_of (Stored two_saved))
  = ((Continue, ["7"]),
     snd (connect_to_saved (always 0 "") epoch (Net.ssid saved_A)
            (world_of (Stored two_saved)))).
Proof.
  apply (menu_saved_select (always 0 "") epoch " 2" "1" ["7"]
           (world_of (Stored two_saved)) 1 saved_A);
    [reflexivity|reflexivity|lia|reflexivity].
Defined.
